(** * ai-document-system: the two request handlers of [app/api]

    A shallow embedding of [app/api/workflow.py] (the workflow endpoint
    [process_document_fully]) and of [app/api/summaries.py] (the summary
    endpoint [get_summary]), with the process-wide state they act on made
    explicit, and the properties of the specification stated over it.

    What is modelled: the file system as the set of paths that exist, the
    Result Cache [DOCUMENT_LAST_RESULT] of [app.api.processing], the
    environment, the source of uuids, standard output, and a trace of the
    calls made to collaborators and to the cache.  The services of
    [app.services], [shutil.copyfileobj] and [dotenv.load_dotenv] are
    parameters: each may return a value or raise, and may change the file
    system.  Whether [open] and [os.remove] succeed, and with which
    exception they fail, is decided by the operating system and is a
    parameter too.  What is idealised: closing the upload buffer at the end
    of the [with] block has no effect on the state; the [async] handler
    runs to completion. *)

From Stdlib Require Import ZArith Ascii String List Lia.
From stdpp Require Import base decidable option gmap strings list fin_maps.

Set Warnings "-register-all".

Local Open Scope string_scope.
Local Open Scope Z_scope.

(** ** Python values

    The handlers pass around values they never inspect beyond truthiness,
    [dict.get] and membership, so values are kept dynamic, as in the code.
    A [str] is a Rocq [string]; each character stands for one code point
    below 256. *)

Inductive pyval : Type :=
  | PyNone
  | PyBool (b : bool)
  | PyInt (z : Z)
  | PyStr (s : string)
  | PyList (l : list pyval)
  | PyDict (d : gmap string pyval).

(** Python's truth value testing: [None], [False], [0], the empty string
    and the empty containers are false, everything else is true. *)
Definition truthy (v : pyval) : bool :=
  match v with
  | PyNone => false
  | PyBool b => b
  | PyInt z => negb (z =? 0)
  | PyStr s => negb (String.eqb s "")
  | PyList l => match l with [] => false | _ :: _ => true end
  | PyDict d => negb (bool_decide (d = ∅))
  end.

(** [d.get(k)] and [d.get(k, default)] on a dict. *)
Definition dict_get (d : gmap string pyval) (k : string) : pyval :=
  default PyNone (d !! k).

Definition dict_get_default (d : gmap string pyval) (k : string) (dflt : pyval) : pyval :=
  default dflt (d !! k).

(** [k in d].  The handler reads [d[k]] only where [k in d] holds, so
    [dict_get] stands for the subscript there. *)
Definition dict_contains (d : gmap string pyval) (k : string) : bool :=
  bool_decide (is_Some (d !! k)).


(** ** Exceptions and outcomes

    [HTTPException] is the one exception the handlers raise themselves;
    [PyException] stands for any other exception, raised by a builtin or
    by a collaborator, named by its class. *)

Inductive exn : Type :=
  | HTTPException (status_code : Z) (detail : string)
  | PyException (class_name : string).

Inductive outcome (A : Type) : Type :=
  | Return (a : A)
  | Raise (e : exn).

Arguments Return {A} a.
Arguments Raise {A} e.

(** ** The process and its surroundings

    [calls] records, in order, every use of a collaborator and every read
    of the Result Cache; it is how "skips step n" and "does not consult the
    cache" are observed.

    [DOCUMENT_LAST_RESULT] is declared in [app/api/processing.py], outside
    the two modules embedded here; [get_summary] uses it as a dict (through
    [.get]), so it is a finite map from identifiers to values, and its
    content is a parameter of every statement. *)

Record SummarizationService : Type := { llm_api_key : string }.

Inductive Event : Type :=
  | EvCopyFileObj (path : string)
  | EvProcessDocument (path : string)
  | EvSummarize (svc : SummarizationService) (text : pyval) (summary_type : string)
  | EvChunkPages (filename : string) (page_details : pyval) (chunk_size overlap : Z)
  | EvBuildIndex (chunks : pyval)
  | EvCacheGet (document_id : string).

Record World : Type := {
  fs : gset string;                          (* the paths that exist *)
  DOCUMENT_LAST_RESULT : gmap string pyval;  (* the Result Cache of app.api.processing *)
  environ : gmap string string;              (* os.environ *)
  uuid_source : nat → string;                (* what the n-th uuid4().hex is *)
  uuid_drawn : nat;                          (* how many have been drawn *)
  calls : list Event;
  stdout : list string
}.

Definition set_fs (f : gset string → gset string) (w : World) : World :=
  {| fs := f (fs w); DOCUMENT_LAST_RESULT := DOCUMENT_LAST_RESULT w;
     environ := environ w; uuid_source := uuid_source w;
     uuid_drawn := uuid_drawn w; calls := calls w; stdout := stdout w |}.

Definition set_environ (f : gmap string string → gmap string string) (w : World) : World :=
  {| fs := fs w; DOCUMENT_LAST_RESULT := DOCUMENT_LAST_RESULT w;
     environ := f (environ w); uuid_source := uuid_source w;
     uuid_drawn := uuid_drawn w; calls := calls w; stdout := stdout w |}.

Definition set_uuid_drawn (n : nat) (w : World) : World :=
  {| fs := fs w; DOCUMENT_LAST_RESULT := DOCUMENT_LAST_RESULT w;
     environ := environ w; uuid_source := uuid_source w;
     uuid_drawn := n; calls := calls w; stdout := stdout w |}.

Definition set_uuid_source (g : nat → string) (w : World) : World :=
  {| fs := fs w; DOCUMENT_LAST_RESULT := DOCUMENT_LAST_RESULT w;
     environ := environ w; uuid_source := g;
     uuid_drawn := uuid_drawn w; calls := calls w; stdout := stdout w |}.

Definition log_call (ev : Event) (w : World) : World :=
  {| fs := fs w; DOCUMENT_LAST_RESULT := DOCUMENT_LAST_RESULT w;
     environ := environ w; uuid_source := uuid_source w;
     uuid_drawn := uuid_drawn w; calls := calls w ++ [ev]; stdout := stdout w |}.

Definition log_stdout (line : string) (w : World) : World :=
  {| fs := fs w; DOCUMENT_LAST_RESULT := DOCUMENT_LAST_RESULT w;
     environ := environ w; uuid_source := uuid_source w;
     uuid_drawn := uuid_drawn w; calls := calls w; stdout := stdout w ++ [line] |}.

(** ** The handler monad: state and exceptions *)

Definition M (A : Type) : Type := World → outcome A * World.

#[global] Instance M_ret : MRet M := λ A a w, (Return a, w).

#[global] Instance M_bind : MBind M := λ A B k m w,
  match m w with
  | (Return a, w') => k a w'
  | (Raise e, w') => (Raise e, w')
  end.

Definition raise {A : Type} (e : exn) : M A := λ w, (Raise e, w).

(** [try: body finally: cleanup].  The cleanup always runs, in the world
    the body left; the body's outcome stands unless the cleanup raises. *)
Definition try_finally {A : Type} (body : M A) (cleanup : M ()) : M A := λ w,
  let '(r, w1) := body w in
  match cleanup w1 with
  | (Return _, w2) => (r, w2)
  | (Raise e, w2) => (Raise e, w2)
  end.

(** A library or service outside the repository: it may return or raise,
    and may change the file system; it cannot reach the handlers' state
    otherwise. *)
Definition extern (A : Type) : Type := gset string → outcome A * gset string.

Definition call {A : Type} (ev : Event) (f : extern A) : M A := λ w,
  let w1 := log_call ev w in
  let '(r, fs') := f (fs w1) in
  (r, set_fs (λ _, fs') w1).

Definition print (line : string) : M () := λ w, (Return (), log_stdout line w).

(** [uuid.uuid4().hex] *)
Definition uuid4_hex : M string := λ w,
  (Return (uuid_source w (uuid_drawn w)), set_uuid_drawn (S (uuid_drawn w)) w).

(** [os.path.exists(path)] *)
Definition os_path_exists (path : string) : M bool := λ w,
  (Return (bool_decide (path ∈ fs w)), w).

(** [os.getenv(name)] *)
Definition os_getenv (name : string) : M (option string) := λ w,
  (Return (environ w !! name), w).

(** [DOCUMENT_LAST_RESULT.get(document_id)]: a [dict.get], so [None] for a
    key that is not there. *)
Definition cache_get (document_id : string) : M pyval := λ w,
  (Return (default PyNone (DOCUMENT_LAST_RESULT w !! document_id)),
   log_call (EvCacheGet document_id) w).

(** ** [str.split()] with no separator

    Python splits on runs of whitespace and drops empty tokens.  Among the
    code points below 256 the whitespace ones are TAB, LF, VT, FF, CR, the
    separators FS, GS, RS, US, the space, NEL (0x85) and NBSP (0xA0). *)

Definition py_isspace (c : ascii) : bool :=
  let n := N_of_ascii c in
  ((9 <=? n) && (n <=? 13) || (28 <=? n) && (n <=? 32) || (n =? 133) || (n =? 160))%N.

(** [word] is the token being read, empty between tokens. *)
Fixpoint split_from (word : string) (s : string) : list string :=
  match s with
  | EmptyString => if String.eqb word "" then [] else [word]
  | String c s' =>
      if py_isspace c
      then (if String.eqb word "" then split_from "" s' else word :: split_from "" s')
      else split_from (word ++ String c "") s'
  end.

Definition py_split (s : string) : list string := split_from "" s.


(** The number of whitespace-separated tokens, counted without building
    them: a token starts at every non-whitespace character that is first
    in the string or follows a whitespace character. *)
Fixpoint token_starts (after_space : bool) (s : string) : nat :=
  match s with
  | EmptyString => 0%nat
  | String c s' =>
      ((if after_space && negb (py_isspace c) then 1 else 0)
       + token_starts (py_isspace c) s')%nat
  end.

Definition count_tokens (s : string) : nat := token_starts true s.

(** ** The collaborators

    Everything the two modules import from outside [app/api]: the services
    of [app.services], [shutil], [dotenv], and the parts of the operating
    system the model does not decide by itself. *)

Record UploadFile : Type := { filename : string; file : string }.

Record Collaborators : Type := {
  (* repr() of a value that is not a str *)
  py_repr : pyval → string;
  (* whether open(path, "wb") succeeds, and the class of the exception it
     raises when it does not (an OSError subclass, ValueError, ...) *)
  can_open_wb : string → gset string → bool;
  open_wb_error : string → gset string → string;
  (* the class of the exception os.remove(path) raises, None when it
     removes the path (IsADirectoryError, PermissionError, ...) *)
  os_remove_error : string → gset string → option string;
  copyfileobj : UploadFile → string → extern ();
  (* dotenv.load_dotenv *)
  load_dotenv : gmap string string → gmap string string;
  (* AdvancedDocumentProcessor.process_document *)
  process_document : string → extern (gmap string pyval);
  (* SummarizationService.summarize_document *)
  summarize_document : SummarizationService → pyval → string → extern string;
  (* EmbeddingService.process_and_chunk_pages and build_index *)
  process_and_chunk_pages : string → pyval → Z → Z → extern pyval;
  build_index : pyval → extern (gmap string pyval)
}.

Section Handlers.

Context (co : Collaborators).

(** [str(v)], as an f-string applies it: a str is itself, anything else
    is its repr. *)
Definition py_str (v : pyval) : string :=
  match v with
  | PyStr s => s
  | _ => py_repr co v
  end.

(** [open(path, "wb")]: creates the file, or raises. *)
Definition open_wb (path : string) : M () := λ w,
  if can_open_wb co path (fs w)
  then (Return (), set_fs (λ f, {[path]} ∪ f) w)
  else (Raise (PyException (open_wb_error co path (fs w))), w).

(** [os.remove(path)]: removes the path, or raises and leaves it. *)
Definition os_remove (path : string) : M () := λ w,
  match os_remove_error co path (fs w) with
  | Some class_name => (Raise (PyException class_name), w)
  | None => (Return (), set_fs (λ f, f ∖ {[path]}) w)
  end.

(** What a [try] body's outcome [r] becomes after the [finally] block of
    the workflow handler has run on the file system [f]: the exception of
    [os.remove] if it raised, [r] otherwise. *)
Definition cleanup_outcome {A : Type} (path : string) (f : gset string)
    (r : outcome A) : outcome A :=
  if bool_decide (path ∈ f)
  then match os_remove_error co path f with
       | Some class_name => Raise (PyException class_name)
       | None => r
       end
  else r.

(** The file system that block leaves. *)
Definition cleanup_fs (path : string) (f : gset string) : gset string :=
  if bool_decide (path ∈ f)
  then match os_remove_error co path f with
       | Some _ => f
       | None => f ∖ {[path]}
       end
  else f.

(** *** app/api/workflow.py *)

Section Workflow.

(** The module-level [summarizer], built at import time. *)
Context (summarizer : SummarizationService).

Definition temp_path (hex : string) (upload : UploadFile) : string :=
  "temp_" ++ hex ++ "_" ++ filename upload.

(** The [finally] block. *)
Definition remove_if_exists (temp_file_path : string) : M () :=
  present ← os_path_exists temp_file_path;
  if present : bool then os_remove temp_file_path else mret ().

Definition process_document_fully (upload : UploadFile) : M pyval :=
  hex ← uuid4_hex;
  let temp_file_path := temp_path hex upload in
  try_finally
    (open_wb temp_file_path;;
     call (EvCopyFileObj temp_file_path) (copyfileobj co upload temp_file_path);;
     print "Step 1: Parsing document...";;
     parsed_data ← call (EvProcessDocument temp_file_path)
                        (process_document co temp_file_path);
     let full_text := dict_get parsed_data "text" in
     let page_details := dict_get parsed_data "page_details" in
     if negb (truthy full_text)
     then raise (HTTPException 400 "Failed to extract text from document.")
     else
       print "Step 2: Generating summary...";;
       summary ← call (EvSummarize summarizer full_text "general")
                      (summarize_document co summarizer full_text "general");
       print "Step 3: Creating search index...";;
       document_id ← uuid4_hex;
       chunks ← call (EvChunkPages (filename upload) page_details 250 50)
                     (process_and_chunk_pages co (filename upload) page_details 250 50);
       build_result ← call (EvBuildIndex chunks) (build_index co chunks);
       if dict_contains build_result "error"
       then raise (HTTPException 500
                     ("Failed to build index: " ++ py_str (dict_get build_result "error")))
       else
         let faiss_index_path := "embeddings/document_index.faiss" in
         print "Processing complete.";;
         mret (PyDict (<["success" := PyBool true]>
                      (<["filename" := PyStr (filename upload)]>
                      (<["summary" := PyStr summary]>
                      (<["faiss_index_path" := PyStr faiss_index_path]> ∅))))))
    (remove_if_exists temp_file_path).

End Workflow.

(** *** app/api/summaries.py *)

(** Truth value of a [str | None] query parameter. *)
Definition opt_truthy (o : option string) : bool :=
  match o with
  | Some s => negb (String.eqb s "")
  | None => false
  end.

(** [get_summarizer]: [None] when the key is unset or empty.  [load_dotenv]
    and the two constructors, which only store their argument, are taken
    not to raise. *)
Definition get_summarizer : M (option SummarizationService) :=
  (λ w, (Return (), set_environ (load_dotenv co) w));;
  api_key ← os_getenv "OPENAI_API_KEY";
  if negb (opt_truthy api_key)
  then mret None
  else mret (Some {| llm_api_key := default "" api_key |}).

(** [cached_result.get("text", "")]: the method exists on a dict only. *)
Definition get_text (cached_result : pyval) : M pyval :=
  match cached_result with
  | PyDict d => mret (dict_get_default d "text" (PyStr ""))
  | _ => raise (PyException "AttributeError")
  end.

Definition not_processed_yet (document_id : string) : pyval :=
  PyDict {[ "error" := PyStr ("Document " ++ document_id
    ++ " not processed yet. Please process the document first using POST /api/process/"
    ++ document_id) ]}.

(** Lines 27 to 35 of [get_summary]: the source text, or the payload of
    the early [return]. *)
Definition resolve_source_text (document_id text : option string) : M (pyval + pyval) :=
  let source_text := PyStr (if opt_truthy text then default "" text else "") in
  if opt_truthy document_id && negb (opt_truthy text)
  then
    cached_result ← cache_get (default "" document_id);
    if truthy cached_result
    then source_text ← get_text cached_result; mret (inr source_text)
    else mret (inl (not_processed_yet (default "" document_id)))
  else mret (inr source_text).

Definition no_text_provided : pyval :=
  PyDict {[ "error" := PyStr
    "No text provided. Either provide 'text' parameter or ensure document is processed with 'document_id'" ]}.

Definition get_summary (type : string) (document_id text : option string) : M pyval :=
  summarizer ← get_summarizer;
  match summarizer with
  | None => mret (PyDict {[ "error" := PyStr "Missing OPENAI_API_KEY" ]})
  | Some summarizer =>
      resolved ← resolve_source_text document_id text;
      match resolved with
      | inl payload => mret payload
      | inr source_text =>
          if negb (truthy source_text)
          then mret no_text_provided
          else
            summary ← call (EvSummarize summarizer source_text type)
                           (summarize_document co summarizer source_text type);
            mret (PyDict (<["summary" := PyStr summary]>
                         (<["word_count" := PyInt (Z.of_nat (length (py_split summary)))]>
                         (<["status" := PyStr "success"]> ∅))))
      end
  end.

End Handlers.

(** ** Predicates used in the statements *)

(** A token of [str.split()]: not empty, and free of whitespace. *)
Definition is_token (t : string) : Prop :=
  t ≠ "" ∧ ∀ c, In c (list_ascii_of_string t) → py_isspace c = false.

(** [keeps P m]: running [m] never changes the projection [P] of the world. *)
Definition keeps {X A : Type} (P : World → X) (m : M A) : Prop :=
  ∀ w, P (m w).2 = P w.

(** [uuid_blind m]: [m] neither reads nor changes what the uuid source
    will produce, so it runs the same under any other source. *)
Definition uuid_blind {A : Type} (m : M A) : Prop :=
  ∀ g w, m (set_uuid_source g w) = ((m w).1, set_uuid_source g (m w).2).

(** ** A concrete process, for running the handlers *)

Module Demo.

Definition index_path : string := "embeddings/document_index.faiss".

Definition services : Collaborators := {|
  py_repr := λ _, "<object>";
  can_open_wb := λ _ _, true;
  open_wb_error := λ _ _, "PermissionError";
  os_remove_error := λ _ _, None;
  copyfileobj := λ _ _ f, (Return (), f);
  load_dotenv := λ e, e;
  process_document := λ _ f,
    (Return (<["text" := PyStr "Annual report. Revenue grew."]>
            (<["page_details" := PyList [PyStr "Annual report. Revenue grew."]]> ∅)), f);
  summarize_document := λ _ _ _ f, (Return "Revenue grew.", f);
  process_and_chunk_pages := λ _ page_details _ _ f, (Return page_details, f);
  build_index := λ _ f, (Return {[ "path" := PyStr index_path ]}, {[index_path]} ∪ f)
|}.


(** The same process with an index build that reports an error. *)
Definition disk_full : Collaborators := {|
  py_repr := py_repr services;
  can_open_wb := can_open_wb services;
  open_wb_error := open_wb_error services;
  os_remove_error := os_remove_error services;
  copyfileobj := copyfileobj services;
  load_dotenv := load_dotenv services;
  process_document := process_document services;
  summarize_document := summarize_document services;
  process_and_chunk_pages := process_and_chunk_pages services;
  build_index := λ _ f, (Return {[ "error" := PyStr "disk full" ]}, f)
|}.

(** The same process on a system that refuses to remove the file. *)
Definition stuck_file : Collaborators := {|
  py_repr := py_repr services;
  can_open_wb := can_open_wb services;
  open_wb_error := open_wb_error services;
  os_remove_error := λ _ _, Some "PermissionError";
  copyfileobj := copyfileobj services;
  load_dotenv := load_dotenv services;
  process_document := process_document services;
  summarize_document := summarize_document services;
  process_and_chunk_pages := process_and_chunk_pages services;
  build_index := build_index services
|}.

Definition uuids (n : nat) : string :=
  match n with
  | O => "5f0c1e7a9b2d4c3e8f6a1b0c9d8e7f60"
  | S O => "a41b7c2d9e3f4051b6c7d8e9f0a1b2c3"
  | _ => "00000000000000000000000000000000"
  end.

Definition world : World := {|
  fs := ∅;
  DOCUMENT_LAST_RESULT := ∅;
  environ := {[ "OPENAI_API_KEY" := "sk-test" ]};
  uuid_source := uuids;
  uuid_drawn := 0;
  calls := [];
  stdout := []
|}.

Definition no_key : World := {|
  fs := ∅;
  DOCUMENT_LAST_RESULT := ∅;
  environ := ∅;
  uuid_source := uuids;
  uuid_drawn := 0;
  calls := [];
  stdout := []
|}.

Definition summarizer : SummarizationService := {| llm_api_key := "sk-test" |}.

Definition upload : UploadFile := {| filename := "report.pdf"; file := "%PDF-1.7" |}.

(** A successful workflow call in [world]. *)
Definition workflow_run : outcome pyval * World :=
  process_document_fully services summarizer upload world.

(** A process whose cache holds one processed document. *)
Definition processed : World := {|
  fs := ∅;
  DOCUMENT_LAST_RESULT :=
    {[ "doc-1" := PyDict (<["text" := PyStr "cached text"]>
                         (<["summary" := PyStr "cached"]> ∅)) ]};
  environ := {[ "OPENAI_API_KEY" := "sk-test" ]};
  uuid_source := uuids;
  uuid_drawn := 0;
  calls := [];
  stdout := []
|}.

End Demo.

(** ** The import of app/api/workflow.py

    The module-level statements of [workflow.py] (lines 17 to 31) run once,
    at import.  [LLMService] and [SummarizationService] are built from the
    key alone, as in [get_summarizer]; the two other constructors are
    outside the repository's API layer and may raise or touch the file
    system.  The message of the [ValueError] is not kept, only its class.
    Whether [os.makedirs(d, exist_ok=True)] succeeds (it raises
    FileExistsError when [d] is a regular file) is decided by the operating
    system, like [open]. *)

Record Constructors : Type := {
  (* AdvancedDocumentProcessor() *)
  new_AdvancedDocumentProcessor : extern ();
  (* EmbeddingService(model_name=...) *)
  new_EmbeddingService : string → extern ();
  (* the class of the exception os.makedirs(path, exist_ok=True) raises,
     None when the directory exists afterwards *)
  makedirs_error : string → gset string → option string
}.

(** A use of something outside the repository that the trace does not
    record. *)
Definition construct {A : Type} (f : extern A) : M A := λ w,
  let '(r, fs') := f (fs w) in (r, set_fs (λ _, fs') w).

Definition os_makedirs_exist_ok (cs : Constructors) (path : string) : M () := λ w,
  match makedirs_error cs path (fs w) with
  | Some class_name => (Raise (PyException class_name), w)
  | None => (Return (), set_fs (λ f, {[path]} ∪ f) w)
  end.

Definition FAISS_INDEX_DIR : string := "faiss_indexes".

(** Returns the module-level [summarizer], the global the handler uses. *)
Definition workflow_module_init (co : Collaborators) (cs : Constructors)
    : M SummarizationService :=
  (λ w, (Return (), set_environ (load_dotenv co) w));;
  api_key ← os_getenv "OPENAI_API_KEY";
  if negb (opt_truthy api_key)
  then raise (PyException "ValueError")
  else
    let llm_service := default "" api_key in
    construct (new_AdvancedDocumentProcessor cs);;
    let summarizer := {| llm_api_key := llm_service |} in
    construct (new_EmbeddingService cs "BAAI/bge-large-en-v1.5");;
    os_makedirs_exist_ok cs FAISS_INDEX_DIR;;
    mret summarizer.

(** ** Conditions on collaborators *)

(** The collaborator never raises an HTTPException of its own. *)
Definition no_http {A : Type} (f : extern A) : Prop :=
  ∀ x st d, (f x).1 ≠ Raise (HTTPException st d).

(** The collaborator leaves the file system as it is. *)
Definition fs_inert {A : Type} (f : extern A) : Prop :=
  ∀ x, (f x).2 = x.

(** [Q] holds of every collaborator call the workflow handler can make. *)
Definition workflow_collaborators (Q : ∀ A : Type, extern A → Prop)
    (co : Collaborators) : Prop :=
  (∀ upload path, Q _ (copyfileobj co upload path))
  ∧ (∀ path, Q _ (process_document co path))
  ∧ (∀ svc text ty, Q _ (summarize_document co svc text ty))
  ∧ (∀ name pages size overlap, Q _ (process_and_chunk_pages co name pages size overlap))
  ∧ (∀ chunks, Q _ (build_index co chunks)).

(** The file system apart from one path. *)
Definition other_files (path : string) (w : World) : gset string := fs w ∖ {[path]}.

(** The chunker call, the first thing step 3 does after drawing the
    DocumentIdentifier. *)
Definition is_chunk_call (ev : Event) : bool :=
  match ev with
  | EvChunkPages _ _ _ _ => true
  | _ => false
  end.

(** [draws_within k m]: [m] draws at most [k] uuids and never rewinds. *)
Definition draws_within {A : Type} (k : nat) (m : M A) : Prop :=
  ∀ w, (uuid_drawn w ≤ uuid_drawn (m w).2 ∧ uuid_drawn (m w).2 ≤ uuid_drawn w + k)%nat.

Module DemoImport.

Definition constructors : Constructors := {|
  new_AdvancedDocumentProcessor := λ f, (Return (), f);
  new_EmbeddingService := λ _ f, (Return (), f);
  makedirs_error := λ _ _, None
|}.

(** An OCR collaborator that raises. *)
Definition broken_ocr : Collaborators := {|
  py_repr := py_repr Demo.services;
  can_open_wb := can_open_wb Demo.services;
  open_wb_error := open_wb_error Demo.services;
  os_remove_error := os_remove_error Demo.services;
  copyfileobj := copyfileobj Demo.services;
  load_dotenv := load_dotenv Demo.services;
  process_document := λ _ f, (Raise (PyException "RuntimeError"), f);
  summarize_document := summarize_document Demo.services;
  process_and_chunk_pages := process_and_chunk_pages Demo.services;
  build_index := build_index Demo.services
|}.

(** A file system that refuses the temporary file. *)
Definition read_only : Collaborators := {|
  py_repr := py_repr Demo.services;
  can_open_wb := λ _ _, false;
  open_wb_error := λ _ _, "ValueError";
  os_remove_error := os_remove_error Demo.services;
  copyfileobj := copyfileobj Demo.services;
  load_dotenv := load_dotenv Demo.services;
  process_document := process_document Demo.services;
  summarize_document := summarize_document Demo.services;
  process_and_chunk_pages := process_and_chunk_pages Demo.services;
  build_index := build_index Demo.services
|}.

(** A cache with an empty result, a result that has no text, and a value
    that is not a dict. *)
Definition odd_cache : World := {|
  fs := ∅;
  DOCUMENT_LAST_RESULT :=
    <["doc-empty" := PyDict ∅]>
    (<["doc-notext" := PyDict {[ "summary" := PyStr "cached" ]}]>
    (<["doc-raw" := PyStr "raw text"]> ∅));
  environ := {[ "OPENAI_API_KEY" := "sk-test" ]};
  uuid_source := Demo.uuids;
  uuid_drawn := 0;
  calls := [];
  stdout := []
|}.

End DemoImport.

(** ** Values and splitting, on examples *)

Example truthy_empty_dict : truthy (PyDict ∅) = false.
Proof. reflexivity. Qed.

Example truthy_dict : truthy (PyDict {[ "text" := PyStr "" ]}) = true.
Proof. vm_compute. reflexivity. Qed.

Example py_split_demo :
  py_split "  the quick
 brown	fox " = ["the"; "quick"; "brown"; "fox"].
Proof. reflexivity. Qed.

(** ** Counting tokens *)

Lemma split_from_length (s word : string) :
  length (split_from word s)
  = (token_starts (String.eqb word "") s + (if String.eqb word "" then 0 else 1))%nat.
Proof.
  revert word. induction s as [|c s IH]; intros word; simpl.
  - destruct (String.eqb word ""); reflexivity.
  - destruct (py_isspace c); simpl.
    + destruct (String.eqb word ""); simpl; rewrite IH; simpl; lia.
    + rewrite IH.
      assert (String.eqb (word ++ String c "") "" = false) as ->.
      { destruct word; reflexivity. }
      destruct (String.eqb word ""); simpl; lia.
Qed.

Lemma py_split_length (s : string) : length (py_split s) = count_tokens s.
Proof. unfold py_split, count_tokens. rewrite split_from_length. simpl. lia. Qed.


Lemma is_token_snoc (word : string) (c : ascii) :
  (word = "" ∨ is_token word) → py_isspace c = false → is_token (word ++ String c "").
Proof.
  intros Hw Hc. split.
  - destruct word; discriminate.
  - intros c'. assert (list_ascii_of_string (word ++ String c "")
                       = (list_ascii_of_string word ++ [c])%list) as ->.
    { clear. induction word; simpl; [reflexivity | now f_equal]. }
    rewrite in_app_iff. intros [Hin | [<- | []]]; [|assumption].
    destruct Hw as [-> | [_ Hw]]; [destruct Hin | now apply Hw].
Qed.

Lemma split_from_tokens (s word : string) :
  (word = "" ∨ is_token word) → Forall is_token (split_from word s).
Proof.
  revert word. induction s as [|c s IH]; intros word Hw; simpl.
  - destruct (String.eqb_spec word ""); [constructor|].
    constructor; [|constructor]. destruct Hw; [contradiction | assumption].
  - destruct (py_isspace c) eqn:Hc.
    + destruct (String.eqb_spec word "").
      * apply IH. now left.
      * constructor; [destruct Hw; [contradiction | assumption] | apply IH; now left].
    + apply IH. right. now apply is_token_snoc.
Qed.

Lemma py_split_tokens (s : string) : Forall is_token (py_split s).
Proof. apply split_from_tokens. now left. Qed.

(** ** Running the monad *)

Lemma bind_run {A B : Type} (m : M A) (k : A → M B) (w : World) :
  (m ≫= k) w = match m w with
               | (Return a, w') => k a w'
               | (Raise e, w') => (Raise e, w')
               end.
Proof. reflexivity. Qed.

Lemma bind_Return {A B : Type} (m : M A) (k : A → M B) (w w' : World) (a : A) :
  m w = (Return a, w') → (m ≫= k) w = k a w'.
Proof. intros H. rewrite bind_run, H. reflexivity. Qed.

Lemma bind_Raise {A B : Type} (m : M A) (k : A → M B) (w w' : World) (e : exn) :
  m w = (Raise e, w') → (m ≫= k) w = (Raise e, w').
Proof. intros H. rewrite bind_run, H. reflexivity. Qed.

Lemma call_run {A : Type} (ev : Event) (f : extern A) (w : World) (r : outcome A)
    (fs' : gset string) :
  f (fs w) = (r, fs') → call ev f w = (r, set_fs (λ _, fs') (log_call ev w)).
Proof. intros H. unfold call. simpl. rewrite H. reflexivity. Qed.

(** ** What a handler leaves alone *)


Create HintDb frame.

Section Keeps.

Context {X : Type} (P : World → X).

Lemma keeps_ret {A : Type} (a : A) : keeps P (mret a).
Proof. intros w. reflexivity. Qed.

Lemma keeps_raise {A : Type} (e : exn) : keeps P (raise e : M A).
Proof. intros w. reflexivity. Qed.

Lemma keeps_bind {A B : Type} (m : M A) (k : A → M B) :
  keeps P m → (∀ a, keeps P (k a)) → keeps P (m ≫= k).
Proof.
  intros Hm Hk w. rewrite bind_run. specialize (Hm w).
  destruct (m w) as [[a|e] w1]; simpl in *; [|assumption].
  rewrite Hk. assumption.
Qed.

Lemma keeps_try_finally {A : Type} (body : M A) (cleanup : M ()) :
  keeps P body → keeps P cleanup → keeps P (try_finally body cleanup).
Proof.
  intros Hb Hc w. unfold try_finally. specialize (Hb w).
  destruct (body w) as [r w1]. specialize (Hc w1).
  destruct (cleanup w1) as [[[]|e] w2]; simpl in *; congruence.
Qed.

Lemma keeps_if {A : Type} (c : bool) (m1 m2 : M A) :
  keeps P m1 → keeps P m2 → keeps P (if c then m1 else m2).
Proof. destruct c; auto. Qed.

End Keeps.

#[global] Hint Resolve keeps_ret keeps_raise keeps_bind keeps_try_finally keeps_if : frame.

(** The Result Cache is out of reach of every primitive but none writes it. *)

Lemma keeps_cache_call {A : Type} (ev : Event) (f : extern A) :
  keeps DOCUMENT_LAST_RESULT (call ev f).
Proof. intros w. unfold call. simpl. destruct (f (fs w)). reflexivity. Qed.

Lemma keeps_cache_print (line : string) : keeps DOCUMENT_LAST_RESULT (print line).
Proof. intros w. reflexivity. Qed.

Lemma keeps_cache_uuid4_hex : keeps DOCUMENT_LAST_RESULT uuid4_hex.
Proof. intros w. reflexivity. Qed.

Lemma keeps_cache_open_wb (co : Collaborators) (path : string) :
  keeps DOCUMENT_LAST_RESULT (open_wb co path).
Proof. intros w. unfold open_wb. destruct (can_open_wb co path (fs w)); reflexivity. Qed.

Lemma keeps_cache_remove_if_exists (co : Collaborators) (path : string) :
  keeps DOCUMENT_LAST_RESULT (remove_if_exists co path).
Proof.
  intros w. unfold remove_if_exists, os_remove. rewrite bind_run. simpl.
  destruct (bool_decide (path ∈ fs w)); [|reflexivity].
  destruct (os_remove_error co path (fs w)); reflexivity.
Qed.

Lemma keeps_cache_cache_get (document_id : string) :
  keeps DOCUMENT_LAST_RESULT (cache_get document_id).
Proof. intros w. reflexivity. Qed.

#[global] Hint Resolve keeps_cache_call keeps_cache_print keeps_cache_uuid4_hex
  keeps_cache_open_wb keeps_cache_remove_if_exists keeps_cache_cache_get : frame.

Lemma process_document_fully_keeps_cache (co : Collaborators)
    (summarizer : SummarizationService) (upload : UploadFile) :
  keeps DOCUMENT_LAST_RESULT (process_document_fully co summarizer upload).
Proof.
  unfold process_document_fully.
  repeat first [ apply keeps_cache_remove_if_exists | apply keeps_cache_open_wb
               | apply keeps_cache_call | apply keeps_cache_print
               | apply keeps_cache_uuid4_hex
               | apply keeps_ret | apply keeps_raise
               | apply keeps_try_finally
               | apply keeps_bind; [| intros ? ]
               | apply keeps_if ].
Qed.

(** ** The workflow endpoint *)

Lemma open_wb_creates (co : Collaborators) (path : string) (w w' : World) :
  open_wb co path w = (Return (), w') → path ∈ fs w'.
Proof.
  unfold open_wb. destruct (can_open_wb co path (fs w)); [|discriminate].
  intros Hw. inversion Hw; subst w'. simpl. set_solver.
Qed.

Lemma cleanup_outcome_Return {A : Type} (co : Collaborators) (path : string)
    (f : gset string) (r : outcome A) (a : A) :
  cleanup_outcome co path f r = Return a → r = Return a.
Proof.
  unfold cleanup_outcome. destruct (bool_decide (path ∈ f)); [|auto].
  destruct (os_remove_error co path f); [discriminate | auto].
Qed.

Lemma cleanup_outcome_HTTPException {A : Type} (co : Collaborators) (path : string)
    (f : gset string) (r : outcome A) (status_code : Z) (detail : string) :
  cleanup_outcome co path f r = Raise (HTTPException status_code detail) →
  r = Raise (HTTPException status_code detail).
Proof.
  unfold cleanup_outcome. destruct (bool_decide (path ∈ f)); [|auto].
  destruct (os_remove_error co path f); [discriminate | auto].
Qed.

Lemma remove_if_exists_run (co : Collaborators) (path : string) (w : World) :
  ∃ w', remove_if_exists co path w = (cleanup_outcome co path (fs w) (Return ()), w')
        ∧ fs w' = cleanup_fs co path (fs w)
        ∧ calls w' = calls w ∧ DOCUMENT_LAST_RESULT w' = DOCUMENT_LAST_RESULT w
        ∧ uuid_drawn w' = uuid_drawn w ∧ stdout w' = stdout w.
Proof.
  unfold remove_if_exists, os_remove, cleanup_outcome, cleanup_fs.
  rewrite bind_run. simpl.
  destruct (bool_decide (path ∈ fs w)).
  - destruct (os_remove_error co path (fs w)); eexists; repeat split.
  - eexists. repeat split.
Qed.

Lemma try_finally_run {A : Type} (co : Collaborators) (body : M A) (path : string)
    (w w1 : World) (r : outcome A) :
  body w = (r, w1) →
  ∃ w', try_finally body (remove_if_exists co path) w
          = (cleanup_outcome co path (fs w1) r, w')
        ∧ fs w' = cleanup_fs co path (fs w1)
        ∧ calls w' = calls w1 ∧ DOCUMENT_LAST_RESULT w' = DOCUMENT_LAST_RESULT w1
        ∧ uuid_drawn w' = uuid_drawn w1 ∧ stdout w' = stdout w1.
Proof.
  intros Hb. unfold try_finally. rewrite Hb.
  destruct (remove_if_exists_run co path w1) as (w' & Hrun & Hrest).
  rewrite Hrun. exists w'. split; [|exact Hrest].
  unfold cleanup_outcome. destruct (bool_decide (path ∈ fs w1)); [|reflexivity].
  destruct (os_remove_error co path (fs w1)); reflexivity.
Qed.

(** C3, as stated, fails when [os.remove] itself raises in the [finally]
    block: on a system that refuses the removal, the run in which every
    step succeeds ends with that PermissionError instead of the response,
    and the temporary file it created is still there. *)
Lemma remove_failure_leaves_temp_file :
  (process_document_fully Demo.stuck_file Demo.summarizer Demo.upload Demo.world).1
  = Raise (PyException "PermissionError")
  ∧ "temp_5f0c1e7a9b2d4c3e8f6a1b0c9d8e7f60_report.pdf"
    ∈ fs (process_document_fully Demo.stuck_file Demo.summarizer Demo.upload Demo.world).2.
Proof.
  split; [vm_compute; reflexivity|].
  vm_compute. reflexivity.
Qed.

(** C3, amended. On every exit path of the [try] body (a response, an
    HTTPException of a pipeline step, or any exception of a collaborator
    or of [open]) the [finally] block runs; when the handler finishes, the
    temporary path does not exist, unless it existed and [os.remove]
    raised on it: then that exception is the handler's outcome and the
    file system is left as the body left it.  In particular the path is
    gone on every system where [os.remove] does not fail on it. *)
Theorem temp_file_removed_unless_remove_fails (co : Collaborators)
    (summarizer : SummarizationService) (upload : UploadFile) (w : World) :
  (temp_path (uuid_source w (uuid_drawn w)) upload
     ∉ fs (process_document_fully co summarizer upload w).2
   ∨ ∃ class_name,
       os_remove_error co (temp_path (uuid_source w (uuid_drawn w)) upload)
         (fs (process_document_fully co summarizer upload w).2) = Some class_name
       ∧ (process_document_fully co summarizer upload w).1
         = Raise (PyException class_name))
  ∧ ((∀ f, os_remove_error co (temp_path (uuid_source w (uuid_drawn w)) upload) f = None) →
     temp_path (uuid_source w (uuid_drawn w)) upload
       ∉ fs (process_document_fully co summarizer upload w).2).
Proof.
  set (path := temp_path (uuid_source w (uuid_drawn w)) upload).
  assert (path ∉ fs (process_document_fully co summarizer upload w).2
          ∨ ∃ class_name,
              os_remove_error co path
                (fs (process_document_fully co summarizer upload w).2) = Some class_name
              ∧ (process_document_fully co summarizer upload w).1
                = Raise (PyException class_name)) as Hcases.
  { unfold process_document_fully. rewrite bind_run. cbn [uuid4_hex]. fold path.
    match goal with
    | |- context [try_finally ?body _ ?w1] =>
        destruct (body w1) as [r w2] eqn:Hbody;
        destruct (try_finally_run co body path w1 w2 r Hbody) as (w' & Hrun & Hfs & _)
    end.
    rewrite Hrun. cbn [fst snd]. rewrite Hfs.
    unfold cleanup_fs, cleanup_outcome.
    destruct (bool_decide_reflect (path ∈ fs w2)) as [Hin | Hout]; [|left; exact Hout].
    destruct (os_remove_error co path (fs w2)) as [class_name|] eqn:Herr.
    - right. exists class_name. split; [exact Herr | reflexivity].
    - left. intros [_ Hn]%elem_of_difference. apply Hn, elem_of_singleton. reflexivity. }
  split; [exact Hcases|].
  intros Hok. destruct Hcases as [Hgone | (class_name & Herr & _)]; [exact Hgone|].
  rewrite Hok in Herr. discriminate.
Qed.


(** One step of a run whose collaborator outcome is known. *)
Ltac run_call H :=
  rewrite bind_run;
  erewrite call_run
    by (cbn [fs set_fs log_call log_stdout set_uuid_drawn set_environ]; exact H);
  cbv beta iota zeta.

Ltac run_print := rewrite bind_run; cbn [print]; cbv beta iota zeta.

Ltac run_open H :=
  rewrite bind_run; unfold open_wb at 1; cbn [fs set_uuid_drawn];
  rewrite H; cbv beta iota zeta.



Ltac run_draw := rewrite bind_run; cbn [uuid4_hex]; cbv beta iota zeta.

Ltac finish_workflow path Hbody :=
  let w' := fresh "w'" in
  let Hrun := fresh "Hrun" in
  let Hcalls := fresh "Hcalls" in
  let Hcache := fresh "Hcache" in
  match goal with
  | co : Collaborators |- _ =>
      destruct (try_finally_run co _ path _ _ _ Hbody)
        as (w' & Hrun & _ & Hcalls & Hcache & _)
  end;
  exists w'; split; [exact Hrun|]; split;
  [ rewrite Hcalls; cbn; rewrite <- ?app_assoc; reflexivity
  | rewrite Hcache; reflexivity ].



(** X1. The run in which every step succeeds: the collaborators are called
    once each and in the order copy, OCR, summarizer, chunker, index build;
    the summarizer gets the OCR text with the type "general", the chunker
    the upload's name, the OCR page details, 250 and 50, the index build
    the chunks; and the response carries the summarizer's answer (only an
    exception of [os.remove] in the [finally] block can replace it). *)
Lemma workflow_success_run (co : Collaborators)
    (summarizer : SummarizationService) (upload : UploadFile) (w : World)
    (fs1 fs2 fs3 fs4 fs5 : gset string) (parsed_data build_result : gmap string pyval)
    (summary : string) (chunks : pyval) :
  let path := temp_path (uuid_source w (uuid_drawn w)) upload in
  let full_text := dict_get parsed_data "text" in
  let page_details := dict_get parsed_data "page_details" in
  can_open_wb co path (fs w) = true →
  copyfileobj co upload path ({[path]} ∪ fs w) = (Return (), fs1) →
  process_document co path fs1 = (Return parsed_data, fs2) →
  truthy full_text = true →
  summarize_document co summarizer full_text "general" fs2 = (Return summary, fs3) →
  process_and_chunk_pages co (filename upload) page_details 250 50 fs3
    = (Return chunks, fs4) →
  build_index co chunks fs4 = (Return build_result, fs5) →
  build_result !! "error" = None →
  ∃ w', process_document_fully co summarizer upload w
          = (cleanup_outcome co path fs5
               (Return (PyDict (<["success" := PyBool true]>
                               (<["filename" := PyStr (filename upload)]>
                               (<["summary" := PyStr summary]>
                               (<["faiss_index_path" :=
                                    PyStr "embeddings/document_index.faiss"]> ∅)))))),
             w')
        ∧ calls w' = (calls w ++ [EvCopyFileObj path; EvProcessDocument path;
                                  EvSummarize summarizer full_text "general";
                                  EvChunkPages (filename upload) page_details 250 50;
                                  EvBuildIndex chunks])%list
        ∧ DOCUMENT_LAST_RESULT w' = DOCUMENT_LAST_RESULT w.
Proof.
  intros path full_text page_details Hopen Hcopy Hocr Htext Hsum Hchunk Hbuild Herr.
  unfold process_document_fully. rewrite bind_run. cbn [uuid4_hex]. fold path.
  match goal with
  | |- context [try_finally ?body _ ?w1] => eassert (body w1 = (_, _)) as Hbody
  end.
  { run_open Hopen. run_call Hcopy. run_print. run_call Hocr.
    fold full_text page_details. rewrite Htext. cbn [negb].
    run_print. run_call Hsum. run_print. run_draw. run_call Hchunk. run_call Hbuild.
    unfold dict_contains. rewrite Herr.
    rewrite bool_decide_eq_false_2 by (intros [? ?]; discriminate).
    run_print. reflexivity. }
  finish_workflow path Hbody.
Qed.

(** Whatever a run of the workflow handler returns as a response has been
    built at the end of the [try] body, from the upload's name and the
    summarizer's answer. *)
Lemma workflow_Return_inv (co : Collaborators)
    (summarizer : SummarizationService) (upload : UploadFile) (w w' : World)
    (response : pyval) :
  process_document_fully co summarizer upload w = (Return response, w') →
  ∃ summary : string,
    response = PyDict (<["success" := PyBool true]>
                      (<["filename" := PyStr (filename upload)]>
                      (<["summary" := PyStr summary]>
                      (<["faiss_index_path" := PyStr "embeddings/document_index.faiss"]>
                       ∅)))).
Proof.
  unfold process_document_fully. rewrite bind_run. cbn [uuid4_hex].
  set (path := temp_path (uuid_source w (uuid_drawn w)) upload).
  match goal with
  | |- context [try_finally ?body _ ?w1] =>
      destruct (body w1) as [r w2] eqn:Hbody;
      destruct (try_finally_run co body path w1 w2 r Hbody) as (w3 & -> & _)
  end.
  intros Heq. inversion Heq as [[Hr Hw]]. apply cleanup_outcome_Return in Hr.
  subst r. clear Heq Hw.
  revert Hbody.
  rewrite bind_run. unfold open_wb at 1.
  destruct (can_open_wb co path _); [|discriminate].
  rewrite bind_run. unfold call at 1. cbv zeta.
  destruct (copyfileobj co upload path _) as [[[]|e] f1]; [|discriminate].
  rewrite bind_run. cbn [print]. rewrite bind_run. unfold call at 1. cbv zeta.
  destruct (process_document co path _) as [[pd|e] f2]; [|discriminate].
  cbv beta iota zeta.
  destruct (truthy (dict_get pd "text")); cbn [negb]; [|discriminate].
  rewrite bind_run. cbn [print]. rewrite bind_run. unfold call at 1. cbv zeta.
  destruct (summarize_document co summarizer _ _ _) as [[summary|e] f3]; [|discriminate].
  rewrite bind_run. cbn [print]. rewrite bind_run. cbn [uuid4_hex].
  rewrite bind_run. unfold call at 1. cbv zeta.
  destruct (process_and_chunk_pages co _ _ _ _ _) as [[chunks|e] f4]; [|discriminate].
  rewrite bind_run. unfold call at 1. cbv zeta.
  destruct (build_index co chunks _) as [[br|e] f5]; [|discriminate].
  cbv beta iota zeta.
  destruct (dict_contains br "error"); [discriminate|].
  rewrite bind_run. cbn [print]. intros Heq. inversion Heq. eauto.
Qed.

(** ** Independence from the uuid source *)


Lemma uuid_blind_ret {A : Type} (a : A) : uuid_blind (mret a).
Proof. intros g w. reflexivity. Qed.

Lemma uuid_blind_raise {A : Type} (e : exn) : uuid_blind (raise e : M A).
Proof. intros g w. reflexivity. Qed.

Lemma uuid_blind_bind {A B : Type} (m : M A) (k : A → M B) :
  uuid_blind m → (∀ a, uuid_blind (k a)) → uuid_blind (m ≫= k).
Proof.
  intros Hm Hk g w. rewrite !bind_run, Hm.
  destruct (m w) as [[a|e] w1]; simpl; [apply Hk | reflexivity].
Qed.

(** A draw whose value is not used, as [document_id] in the handler. *)
Lemma uuid_blind_discard_draw {B : Type} (k : M B) :
  uuid_blind k → uuid_blind (uuid4_hex ≫= λ _, k).
Proof.
  intros Hk g w. rewrite !bind_run. cbn [uuid4_hex].
  exact (Hk g (set_uuid_drawn (S (uuid_drawn w)) w)).
Qed.

Lemma uuid_blind_try_finally {A : Type} (body : M A) (cleanup : M ()) :
  uuid_blind body → uuid_blind cleanup → uuid_blind (try_finally body cleanup).
Proof.
  intros Hb Hc g w. unfold try_finally. rewrite Hb.
  destruct (body w) as [r w1]; simpl. rewrite Hc.
  destruct (cleanup w1) as [[[]|e] w2]; reflexivity.
Qed.

Lemma uuid_blind_if {A : Type} (c : bool) (m1 m2 : M A) :
  uuid_blind m1 → uuid_blind m2 → uuid_blind (if c then m1 else m2).
Proof. destruct c; auto. Qed.

Lemma uuid_blind_call {A : Type} (ev : Event) (f : extern A) : uuid_blind (call ev f).
Proof. intros g w. unfold call. simpl. destruct (f (fs w)). reflexivity. Qed.

Lemma uuid_blind_print (line : string) : uuid_blind (print line).
Proof. intros g w. reflexivity. Qed.

Lemma uuid_blind_open_wb (co : Collaborators) (path : string) :
  uuid_blind (open_wb co path).
Proof.
  intros g w. unfold open_wb. simpl.
  destruct (can_open_wb co path (fs w)); reflexivity.
Qed.

Lemma uuid_blind_remove_if_exists (co : Collaborators) (path : string) :
  uuid_blind (remove_if_exists co path).
Proof.
  intros g w. unfold remove_if_exists, os_remove. rewrite !bind_run. simpl.
  destruct (bool_decide (path ∈ fs w)); [|reflexivity].
  change (fs (set_uuid_source g w)) with (fs w).
  destruct (os_remove_error co path (fs w)); reflexivity.
Qed.

Lemma workflow_ignores_document_id (co : Collaborators)
    (summarizer : SummarizationService) (upload : UploadFile) (w : World)
    (g : nat → string) :
  g (uuid_drawn w) = uuid_source w (uuid_drawn w) →
  (process_document_fully co summarizer upload (set_uuid_source g w)).1
  = (process_document_fully co summarizer upload w).1.
Proof.
  intros Hg. unfold process_document_fully. rewrite !bind_run.
  cbn [uuid4_hex uuid_source uuid_drawn set_uuid_source]. rewrite Hg.
  match goal with
  | |- (?m ?w1).1 = _ =>
      change w1 with (set_uuid_source g (set_uuid_drawn (S (uuid_drawn w)) w));
      assert (uuid_blind m) as ->
  end; [|reflexivity].
  repeat first [ apply uuid_blind_remove_if_exists | apply uuid_blind_open_wb
               | apply uuid_blind_call | apply uuid_blind_print
               | apply uuid_blind_ret | apply uuid_blind_raise
               | apply uuid_blind_try_finally
               | apply uuid_blind_discard_draw
               | apply uuid_blind_bind; [| intros ? ]
               | apply uuid_blind_if ].
Qed.

(** C10. A successful workflow call answers with a dict whose keys are
    exactly success, filename, summary and faiss_index_path; the value of
    faiss_index_path is the constant "embeddings/document_index.faiss"
    whatever the upload and whatever [build_index] returned; and the
    response does not depend on the DocumentIdentifier: under any other uuid
    source that names the same temporary file the response is the same. *)
Theorem workflow_response_shape (co : Collaborators)
    (summarizer : SummarizationService) (upload : UploadFile) (w w' : World)
    (response : pyval) :
  process_document_fully co summarizer upload w = (Return response, w') →
  ∃ d : gmap string pyval,
    response = PyDict d
    ∧ dom d = {[ "success"; "filename"; "summary"; "faiss_index_path" ]}
    ∧ d !! "success" = Some (PyBool true)
    ∧ d !! "filename" = Some (PyStr (filename upload))
    ∧ (∃ summary, d !! "summary" = Some (PyStr summary))
    ∧ d !! "faiss_index_path" = Some (PyStr "embeddings/document_index.faiss")
    ∧ d !! "document_id" = None
    ∧ ∀ g, g (uuid_drawn w) = uuid_source w (uuid_drawn w) →
        (process_document_fully co summarizer upload (set_uuid_source g w)).1
        = Return response.
Proof.
  intros Hrun. destruct (workflow_Return_inv _ _ _ _ _ _ Hrun) as [summary ->].
  eexists. split; [reflexivity|].
  split; [| split; [| split; [| split; [| split; [| split]]]]].
  - rewrite !dom_insert_L, dom_empty_L. apply set_eq. intros k.
    rewrite !elem_of_union, !elem_of_singleton, elem_of_empty. tauto.
  - reflexivity.
  - reflexivity.
  - exists summary. reflexivity.
  - reflexivity.
  - reflexivity.
  - intros g Hg. rewrite workflow_ignores_document_id by exact Hg.
    rewrite Hrun. reflexivity.
Qed.

Lemma workflow_response_shape_witness :
  ∃ d : gmap string pyval,
    PyDict (<["success" := PyBool true]>
           (<["filename" := PyStr "report.pdf"]>
           (<["summary" := PyStr "Revenue grew."]>
           (<["faiss_index_path" := PyStr "embeddings/document_index.faiss"]> ∅))))
    = PyDict d
    ∧ dom d = {[ "success"; "filename"; "summary"; "faiss_index_path" ]}
    ∧ d !! "faiss_index_path" = Some (PyStr "embeddings/document_index.faiss")
    ∧ d !! "document_id" = None.
Proof.
  destruct (workflow_response_shape Demo.services Demo.summarizer Demo.upload Demo.world
              (process_document_fully Demo.services Demo.summarizer Demo.upload
                 Demo.world).2
              (PyDict (<["success" := PyBool true]>
                      (<["filename" := PyStr "report.pdf"]>
                      (<["summary" := PyStr "Revenue grew."]>
                      (<["faiss_index_path" := PyStr "embeddings/document_index.faiss"]>
                       ∅))))))
    as (d & Hd & Hdom & _ & _ & _ & Hpath & Hid & _).
  - vm_compute. reflexivity.
  - exists d. auto.
Defined.

(** C1, as stated, fails: a run in which every step succeeds returns its
    response, has drawn the DocumentIdentifier a41b7c2d9e3f4051b6c7d8e9f0a1b2c3
    (the second uuid), and leaves the Result Cache empty: no entry maps that
    identifier to a result. *)
Lemma workflow_success_writes_no_entry :
  Demo.workflow_run.1 = Return (PyDict (<["success" := PyBool true]>
                         (<["filename" := PyStr "report.pdf"]>
                         (<["summary" := PyStr "Revenue grew."]>
                         (<["faiss_index_path" := PyStr "embeddings/document_index.faiss"]>
                          ∅)))))
  ∧ uuid_drawn Demo.workflow_run.2 = 2%nat
  ∧ DOCUMENT_LAST_RESULT Demo.workflow_run.2 !! "a41b7c2d9e3f4051b6c7d8e9f0a1b2c3" = None
  ∧ DOCUMENT_LAST_RESULT Demo.workflow_run.2 = ∅.
Proof. vm_compute. repeat split; reflexivity. Qed.

(** C1, amended. A successful workflow call returns its response and leaves
    the Result Cache exactly as it found it: [workflow.py] never writes
    [DOCUMENT_LAST_RESULT], so the generated DocumentIdentifier is a key
    afterwards only if it was one before. *)
Theorem workflow_success_leaves_cache (co : Collaborators)
    (summarizer : SummarizationService) (upload : UploadFile) (w w' : World)
    (response : pyval) :
  process_document_fully co summarizer upload w = (Return response, w') →
  DOCUMENT_LAST_RESULT w' = DOCUMENT_LAST_RESULT w
  ∧ ∀ document_id,
      DOCUMENT_LAST_RESULT w' !! document_id = DOCUMENT_LAST_RESULT w !! document_id.
Proof.
  intros Hrun.
  pose proof (process_document_fully_keeps_cache co summarizer upload w) as Hkeep.
  rewrite Hrun in Hkeep. simpl in Hkeep.
  split; [exact Hkeep | intros document_id; rewrite Hkeep; reflexivity].
Qed.

Lemma workflow_success_leaves_cache_witness :
  DOCUMENT_LAST_RESULT
    (process_document_fully Demo.services Demo.summarizer Demo.upload Demo.world).2
  = DOCUMENT_LAST_RESULT Demo.world.
Proof.
  refine (proj1 (workflow_success_leaves_cache Demo.services Demo.summarizer Demo.upload
                   Demo.world _
                   (PyDict (<["success" := PyBool true]>
                           (<["filename" := PyStr "report.pdf"]>
                           (<["summary" := PyStr "Revenue grew."]>
                           (<["faiss_index_path" := PyStr "embeddings/document_index.faiss"]>
                            ∅))))) _)).
  vm_compute. reflexivity.
Defined.

(** ** The summary endpoint *)

Lemma opt_truthy_Some (s : string) : s ≠ "" → opt_truthy (Some s) = true.
Proof. intros Hs. simpl. destruct (String.eqb_spec s ""); [contradiction | reflexivity]. Qed.

Lemma get_summarizer_None (co : Collaborators) (w : World) :
  opt_truthy (load_dotenv co (environ w) !! "OPENAI_API_KEY") = false →
  get_summarizer co w = (Return None, set_environ (load_dotenv co) w).
Proof.
  intros Hkey. unfold get_summarizer. rewrite !bind_run. cbn [os_getenv environ set_environ].
  rewrite Hkey. reflexivity.
Qed.

Lemma get_summarizer_Some (co : Collaborators) (w : World) (key : string) :
  load_dotenv co (environ w) !! "OPENAI_API_KEY" = Some key → key ≠ "" →
  get_summarizer co w
  = (Return (Some {| llm_api_key := key |}), set_environ (load_dotenv co) w).
Proof.
  intros Hkey Hne. unfold get_summarizer. rewrite !bind_run.
  cbn [os_getenv environ set_environ]. rewrite Hkey, opt_truthy_Some by exact Hne.
  reflexivity.
Qed.

Lemma get_summarizer_run (co : Collaborators) (w : World) :
  ∃ o, get_summarizer co w = (Return o, set_environ (load_dotenv co) w).
Proof.
  unfold get_summarizer. rewrite !bind_run. cbn [os_getenv environ set_environ].
  destruct (negb (opt_truthy _)); eexists; reflexivity.
Qed.

(** C6. When OPENAI_API_KEY is unset (or empty) after [load_dotenv], the
    summary endpoint returns {"error": "Missing OPENAI_API_KEY"}; nothing
    was called and the cache was not read (the call trace is unchanged),
    and the cache and the file system are what they were. *)
Theorem missing_key_short_circuits (co : Collaborators) (type : string)
    (document_id text : option string) (w : World) :
  opt_truthy (load_dotenv co (environ w) !! "OPENAI_API_KEY") = false →
  ∃ w', get_summary co type document_id text w
          = (Return (PyDict {[ "error" := PyStr "Missing OPENAI_API_KEY" ]}), w')
        ∧ calls w' = calls w
        ∧ DOCUMENT_LAST_RESULT w' = DOCUMENT_LAST_RESULT w
        ∧ fs w' = fs w.
Proof.
  intros Hkey. unfold get_summary.
  rewrite (bind_Return _ _ _ _ _ (get_summarizer_None co w Hkey)).
  eexists. split; [reflexivity|]. auto.
Qed.

Lemma missing_key_short_circuits_witness :
  ∃ w', get_summary Demo.services "short" (Some "doc-1") None Demo.no_key
          = (Return (PyDict {[ "error" := PyStr "Missing OPENAI_API_KEY" ]}), w')
        ∧ calls w' = calls Demo.no_key
        ∧ DOCUMENT_LAST_RESULT w' = DOCUMENT_LAST_RESULT Demo.no_key
        ∧ fs w' = fs Demo.no_key.
Proof.
  apply (missing_key_short_circuits Demo.services "short" (Some "doc-1") None Demo.no_key).
  reflexivity.
Defined.

Lemma truthy_dict_with_key (d : gmap string pyval) (k : string) (v : pyval) :
  d !! k = Some v → truthy (PyDict d) = true.
Proof.
  intros Hk. simpl. rewrite bool_decide_eq_false_2; [reflexivity|].
  intros ->. rewrite lookup_empty in Hk. discriminate.
Qed.

(** Source text resolution when the identifier is the one to use. *)
Lemma resolve_by_id_run (document_id : string) (text : option string) (w : World) :
  document_id ≠ "" → opt_truthy text = false →
  resolve_source_text (Some document_id) text w
  = let cached_result := default PyNone (DOCUMENT_LAST_RESULT w !! document_id) in
    let w1 := log_call (EvCacheGet document_id) w in
    if truthy cached_result
    then match get_text cached_result w1 with
         | (Return source_text, w2) => (Return (inr source_text), w2)
         | (Raise e, w2) => (Raise e, w2)
         end
    else (Return (inl (not_processed_yet document_id)), w1).
Proof.
  intros Hid Htext. unfold resolve_source_text.
  rewrite opt_truthy_Some by exact Hid. rewrite Htext. cbn [andb negb].
  rewrite bind_run. cbn [cache_get default]. cbv zeta.
  destruct (truthy _); [rewrite bind_run|]; reflexivity.
Qed.

(** C7, as stated, fails for the empty identifier: it was never written to
    the cache, yet the summary endpoint, called with it and no text, does
    not look it up and answers with the usage error "No text provided ...",
    not with the advice to process the document first.  It also fails for
    any identifier when the credential is missing: the answer is then the
    configuration error of C6. *)
Lemma empty_id_is_usage_error :
  DOCUMENT_LAST_RESULT Demo.world !! "" = None
  ∧ (get_summary Demo.services "short" (Some "") None Demo.world).1
    = Return (PyDict {[ "error" := PyStr
        "No text provided. Either provide 'text' parameter or ensure document is processed with 'document_id'" ]})
  ∧ calls (get_summary Demo.services "short" (Some "") None Demo.world).2 = []
  ∧ DOCUMENT_LAST_RESULT Demo.no_key !! "doc-404" = None
  ∧ (get_summary Demo.services "short" (Some "doc-404") None Demo.no_key).1
    = Return (PyDict {[ "error" := PyStr "Missing OPENAI_API_KEY" ]}).
Proof. vm_compute. repeat split; reflexivity. Qed.

(** C7, amended. For a non-empty identifier that is not a key of the Result
    Cache, the lookup returns [None] rather than raising, and the summary
    endpoint, with the credential present and no (or empty) text, returns
    the payload "Document <id> not processed yet. Please process the
    document first using POST /api/process/<id>", having read the cache
    once and called no collaborator. *)
Theorem unknown_id_process_first (co : Collaborators) (type document_id key : string)
    (text : option string) (w : World) :
  DOCUMENT_LAST_RESULT w !! document_id = None →
  document_id ≠ "" →
  opt_truthy text = false →
  load_dotenv co (environ w) !! "OPENAI_API_KEY" = Some key → key ≠ "" →
  (cache_get document_id w).1 = Return PyNone
  ∧ ∃ w', get_summary co type (Some document_id) text w
            = (Return (not_processed_yet document_id), w')
          ∧ calls w' = (calls w ++ [EvCacheGet document_id])%list
          ∧ DOCUMENT_LAST_RESULT w' = DOCUMENT_LAST_RESULT w.
Proof.
  intros Hmiss Hid Htext Hkey Hne. split.
  - unfold cache_get. simpl. rewrite Hmiss. reflexivity.
  - unfold get_summary.
    rewrite (bind_Return _ _ _ _ _ (get_summarizer_Some co w key Hkey Hne)).
    rewrite bind_run, resolve_by_id_run by assumption.
    cbn [DOCUMENT_LAST_RESULT set_environ]. rewrite Hmiss. cbn [default truthy].
    eexists. split; [reflexivity|]. split; reflexivity.
Qed.

Lemma unknown_id_process_first_witness :
  (cache_get "doc-404" Demo.world).1 = Return PyNone
  ∧ ∃ w', get_summary Demo.services "short" (Some "doc-404") None Demo.world
            = (Return (not_processed_yet "doc-404"), w')
          ∧ calls w' = (calls Demo.world ++ [EvCacheGet "doc-404"])%list
          ∧ DOCUMENT_LAST_RESULT w' = DOCUMENT_LAST_RESULT Demo.world.
Proof.
  apply (unknown_id_process_first Demo.services "short" "doc-404" "sk-test" None
           Demo.world); [reflexivity | discriminate | reflexivity | reflexivity | discriminate].
Defined.

(** The summarizer step of [get_summary], whatever the collaborator does. *)
Lemma summarize_step_calls (co : Collaborators) (svc : SummarizationService)
    (source_text : pyval) (type : string) (w1 : World) (r : outcome pyval) (w' : World) :
  (summary ← call (EvSummarize svc source_text type)
                  (summarize_document co svc source_text type);
   mret (PyDict (<["summary" := PyStr summary]>
                (<["word_count" := PyInt (Z.of_nat (length (py_split summary)))]>
                (<["status" := PyStr "success"]> ∅))))) w1 = (r, w') →
  calls w' = (calls w1 ++ [EvSummarize svc source_text type])%list
  ∧ DOCUMENT_LAST_RESULT w' = DOCUMENT_LAST_RESULT w1.
Proof.
  rewrite bind_run. unfold call. cbv zeta. cbn [fs log_call].
  destruct (summarize_document co svc source_text type (fs w1)) as [[summary|e] f];
    intros Heq; inversion Heq; subst; split; reflexivity.
Qed.

(** C8, as stated, fails when the supplied text is the empty string: with
    [text=""] and [document_id="doc-1"] the endpoint reads the cache and
    summarizes the cached text, not the supplied one. *)
Lemma empty_text_consults_cache :
  calls (get_summary Demo.services "short" (Some "doc-1") (Some "") Demo.processed).2
  = [EvCacheGet "doc-1";
     EvSummarize {| llm_api_key := "sk-test" |} (PyStr "cached text") "short"]
  ∧ (resolve_source_text (Some "doc-1") (Some "") Demo.processed).1
    = Return (inr (PyStr "cached text")).
Proof. vm_compute. split; reflexivity. Qed.

(** C8, amended. When a non-empty text is supplied, it is the source text
    whatever identifier comes with it, and the cache is not read: source
    text resolution returns the text and leaves the world untouched, and
    the whole call either stops at the missing credential, with no call
    at all, or consists of one summarizer call on the supplied text. *)
Theorem supplied_text_is_source (co : Collaborators) (type text : string)
    (document_id : option string) (w : World) :
  text ≠ "" →
  resolve_source_text document_id (Some text) w = (Return (inr (PyStr text)), w)
  ∧ ∀ r w', get_summary co type document_id (Some text) w = (r, w') →
      DOCUMENT_LAST_RESULT w' = DOCUMENT_LAST_RESULT w
      ∧ (calls w' = calls w
         ∨ ∃ svc, calls w' = (calls w ++ [EvSummarize svc (PyStr text) type])%list).
Proof.
  intros Htext.
  assert (∀ w0, resolve_source_text document_id (Some text) w0
                = (Return (inr (PyStr text)), w0)) as Hres.
  { intros w0. unfold resolve_source_text. rewrite opt_truthy_Some by exact Htext.
    cbn [negb from_option id]. rewrite andb_false_r. reflexivity. }
  split; [apply Hres|].
  intros r w'. unfold get_summary.
  destruct (get_summarizer_run co w) as [[svc|] Hsvc];
    rewrite (bind_Return _ _ _ _ _ Hsvc).
  - rewrite (bind_Return _ _ _ _ _ (Hres _)).
    assert (truthy (PyStr text) = true) as ->.
    { simpl. destruct (String.eqb_spec text ""); [contradiction | reflexivity]. }
    cbn [negb]. intros Hrun. apply summarize_step_calls in Hrun.
    destruct Hrun as [Hcalls Hcache]. split; [exact Hcache|].
    right. exists svc. exact Hcalls.
  - intros Hrun. inversion Hrun; subst. split; [reflexivity | left; reflexivity].
Qed.

Lemma supplied_text_is_source_witness :
  resolve_source_text (Some "doc-1") (Some "Hello world") Demo.processed
  = (Return (inr (PyStr "Hello world")), Demo.processed)
  ∧ DOCUMENT_LAST_RESULT
      (get_summary Demo.services "short" (Some "doc-1") (Some "Hello world")
         Demo.processed).2
    = DOCUMENT_LAST_RESULT Demo.processed.
Proof.
  destruct (supplied_text_is_source Demo.services "short" "Hello world"
              (Some "doc-1") Demo.processed) as [Hres Hcalls]; [discriminate|].
  split; [exact Hres|].
  exact (proj1 (Hcalls _ _ (surjective_pairing _))).
Defined.

Example supplied_text_calls :
  calls (get_summary Demo.services "short" (Some "doc-1") (Some "Hello world")
           Demo.processed).2
  = [EvSummarize {| llm_api_key := "sk-test" |} (PyStr "Hello world") "short"].
Proof. vm_compute. reflexivity. Qed.

(** C9. With the credential present, a non-empty resolved source text and
    a summarizer that returns [summary], the summary endpoint returns
    {"summary": summary, "word_count": n, "status": "success"}, where [n]
    is the number of whitespace-separated tokens of [summary], and the
    summarizer was called on the resolved text with the requested type. *)
Theorem summary_response (co : Collaborators) (type key summary : string)
    (document_id text : option string) (w w1 : World) (source_text : pyval)
    (fs' : gset string) :
  load_dotenv co (environ w) !! "OPENAI_API_KEY" = Some key → key ≠ "" →
  resolve_source_text document_id text (set_environ (load_dotenv co) w)
    = (Return (inr source_text), w1) →
  truthy source_text = true →
  summarize_document co {| llm_api_key := key |} source_text type (fs w1)
    = (Return summary, fs') →
  ∃ w', get_summary co type document_id text w
          = (Return (PyDict (<["summary" := PyStr summary]>
                            (<["word_count" := PyInt (Z.of_nat (count_tokens summary))]>
                            (<["status" := PyStr "success"]> ∅)))), w')
        ∧ calls w' = (calls w1 ++ [EvSummarize {| llm_api_key := key |} source_text type])%list.
Proof.
  intros Hkey Hne Hres Htruthy Hsum. unfold get_summary.
  rewrite (bind_Return _ _ _ _ _ (get_summarizer_Some co w key Hkey Hne)).
  rewrite (bind_Return _ _ _ _ _ Hres). rewrite Htruthy. cbn [negb].
  run_call Hsum. rewrite py_split_length.
  eexists. split; [reflexivity|]. reflexivity.
Qed.

Lemma summary_response_witness :
  ∃ w', get_summary Demo.services "short" None (Some "Hello world") Demo.world
          = (Return (PyDict (<["summary" := PyStr "Revenue grew."]>
                            (<["word_count" := PyInt 2]>
                            (<["status" := PyStr "success"]> ∅)))), w')
        ∧ calls w' = [EvSummarize {| llm_api_key := "sk-test" |} (PyStr "Hello world") "short"].
Proof.
  apply (summary_response Demo.services "short" "sk-test" "Revenue grew."
           None (Some "Hello world") Demo.world
           (set_environ (load_dotenv Demo.services) Demo.world)
           (PyStr "Hello world") ∅);
    [reflexivity | discriminate | reflexivity | reflexivity | reflexivity].
Defined.

(** C2, as stated, fails: after the successful workflow call that extracted
    the text "Annual report. Revenue grew." and generated the identifier
    a41b7c2d9e3f4051b6c7d8e9f0a1b2c3, the summary endpoint called with that
    identifier and no text finds nothing in the cache and returns the
    "not processed yet" payload; the summarizer is not called again. *)
Lemma workflow_then_summary_not_processed :
  (∃ response, Demo.workflow_run.1 = Return response)
  ∧ uuid_source Demo.world 1 = "a41b7c2d9e3f4051b6c7d8e9f0a1b2c3"
  ∧ (resolve_source_text (Some "a41b7c2d9e3f4051b6c7d8e9f0a1b2c3") None
       Demo.workflow_run.2).1
    = Return (inl (not_processed_yet "a41b7c2d9e3f4051b6c7d8e9f0a1b2c3"))
  ∧ (get_summary Demo.services "short" (Some "a41b7c2d9e3f4051b6c7d8e9f0a1b2c3") None
       Demo.workflow_run.2).1
    = Return (not_processed_yet "a41b7c2d9e3f4051b6c7d8e9f0a1b2c3").
Proof.
  split; [eexists; vm_compute; reflexivity|].
  vm_compute. repeat split; reflexivity.
Qed.

(** C2, amended. When the Result Cache maps a non-empty identifier D to a
    dict whose "text" is T (an entry the workflow endpoint never writes
    itself), the summary endpoint called with [document_id=D] and no text
    resolves its source text to exactly T, reading the cache once; and
    when T is not empty the whole call either stops at the missing
    credential or reads the cache and then calls the summarizer on T. *)
Theorem cached_text_roundtrip (co : Collaborators) (type D : string)
    (text : option string) (w : World) (d : gmap string pyval) (T : pyval) :
  D ≠ "" →
  opt_truthy text = false →
  DOCUMENT_LAST_RESULT w !! D = Some (PyDict d) →
  d !! "text" = Some T →
  resolve_source_text (Some D) text w = (Return (inr T), log_call (EvCacheGet D) w)
  ∧ (truthy T = true →
     ∀ r w', get_summary co type (Some D) text w = (r, w') →
       calls w' = calls w
       ∨ ∃ svc, calls w' = (calls w ++ [EvCacheGet D; EvSummarize svc T type])%list).
Proof.
  intros HD Htext Hcache HT.
  assert (∀ w0, DOCUMENT_LAST_RESULT w0 = DOCUMENT_LAST_RESULT w →
                resolve_source_text (Some D) text w0
                = (Return (inr T), log_call (EvCacheGet D) w0)) as Hres.
  { intros w0 Hw0. rewrite resolve_by_id_run by assumption. cbv zeta.
    rewrite Hw0, Hcache. cbn [from_option id].
    rewrite (truthy_dict_with_key d "text" T HT).
    unfold get_text, dict_get_default. rewrite HT. reflexivity. }
  split; [apply Hres; reflexivity|].
  intros Htruthy r w'. unfold get_summary.
  destruct (get_summarizer_run co w) as [[svc|] Hsvc];
    rewrite (bind_Return _ _ _ _ _ Hsvc).
  - rewrite (bind_Return _ _ _ _ _ (Hres (set_environ (load_dotenv co) w) eq_refl)).
    rewrite Htruthy. cbn [negb]. intros Hrun.
    apply summarize_step_calls in Hrun. destruct Hrun as [Hcalls _].
    right. exists svc. rewrite Hcalls.
    cbn [calls log_call set_environ]. rewrite <- app_assoc. reflexivity.
  - intros Hrun. inversion Hrun; subst. left. reflexivity.
Qed.

Lemma cached_text_roundtrip_witness :
  resolve_source_text (Some "doc-1") None Demo.processed
  = (Return (inr (PyStr "cached text")), log_call (EvCacheGet "doc-1") Demo.processed).
Proof.
  refine (proj1 (cached_text_roundtrip Demo.services "short" "doc-1" None
                   Demo.processed
                   (<["text" := PyStr "cached text"]> (<["summary" := PyStr "cached"]> ∅))
                   (PyStr "cached text") _ _ _ _));
    [discriminate | reflexivity | reflexivity | reflexivity].
Defined.

(** ** Further properties of the workflow endpoint *)

Lemma workflow_success_run_witness :
  ∃ w', Demo.workflow_run
        = (Return (PyDict (<["success" := PyBool true]>
                          (<["filename" := PyStr "report.pdf"]>
                          (<["summary" := PyStr "Revenue grew."]>
                          (<["faiss_index_path" := PyStr "embeddings/document_index.faiss"]>
                           ∅))))), w')
        ∧ calls w'
          = [EvCopyFileObj "temp_5f0c1e7a9b2d4c3e8f6a1b0c9d8e7f60_report.pdf";
             EvProcessDocument "temp_5f0c1e7a9b2d4c3e8f6a1b0c9d8e7f60_report.pdf";
             EvSummarize Demo.summarizer (PyStr "Annual report. Revenue grew.") "general";
             EvChunkPages "report.pdf" (PyList [PyStr "Annual report. Revenue grew."]) 250 50;
             EvBuildIndex (PyList [PyStr "Annual report. Revenue grew."])].
Proof.
  destruct (workflow_success_run Demo.services Demo.summarizer Demo.upload Demo.world
              ({["temp_5f0c1e7a9b2d4c3e8f6a1b0c9d8e7f60_report.pdf"]} ∪ ∅)
              ({["temp_5f0c1e7a9b2d4c3e8f6a1b0c9d8e7f60_report.pdf"]} ∪ ∅)
              ({["temp_5f0c1e7a9b2d4c3e8f6a1b0c9d8e7f60_report.pdf"]} ∪ ∅)
              ({["temp_5f0c1e7a9b2d4c3e8f6a1b0c9d8e7f60_report.pdf"]} ∪ ∅)
              ({[Demo.index_path]}
               ∪ ({["temp_5f0c1e7a9b2d4c3e8f6a1b0c9d8e7f60_report.pdf"]} ∪ ∅))
              (<["text" := PyStr "Annual report. Revenue grew."]>
                 (<["page_details" := PyList [PyStr "Annual report. Revenue grew."]]> ∅))
              {[ "path" := PyStr Demo.index_path ]}
              "Revenue grew."
              (PyList [PyStr "Annual report. Revenue grew."]))
    as (w' & Hrun & Hcalls & _); [reflexivity.. |].
  exists w'. split; [exact Hrun | exact Hcalls].
Defined.

(** X2. An exception of the OCR collaborator is the outcome of the handler,
    unless [os.remove] raises in the [finally] block and replaces it.  The
    summarizer, the chunker and the index build are not called, no
    DocumentIdentifier is drawn and the cache is what it was; the file
    system is the one the OCR left, without the temporary file if its
    removal did not fail. *)
Theorem ocr_exception_propagates (co : Collaborators) (summarizer : SummarizationService)
    (upload : UploadFile) (w : World) (fs1 fs2 : gset string) (e : exn) :
  let path := temp_path (uuid_source w (uuid_drawn w)) upload in
  can_open_wb co path (fs w) = true →
  copyfileobj co upload path ({[path]} ∪ fs w) = (Return (), fs1) →
  process_document co path fs1 = (Raise e, fs2) →
  ∃ w', process_document_fully co summarizer upload w
          = (cleanup_outcome co path fs2 (Raise e), w')
        ∧ calls w' = (calls w ++ [EvCopyFileObj path; EvProcessDocument path])%list
        ∧ uuid_drawn w' = S (uuid_drawn w)
        ∧ DOCUMENT_LAST_RESULT w' = DOCUMENT_LAST_RESULT w
        ∧ fs w' = cleanup_fs co path fs2.
Proof.
  intros path Hopen Hcopy Hocr.
  unfold process_document_fully. rewrite bind_run. cbn [uuid4_hex]. fold path.
  match goal with
  | |- context [try_finally ?body _ ?w1] => eassert (body w1 = (_, _)) as Hbody
  end.
  { run_open Hopen. run_call Hcopy. run_print. run_call Hocr. reflexivity. }
  destruct (try_finally_run co _ path _ _ _ Hbody)
    as (w' & Hrun & Hfs & Hcalls & Hcache & Hdrawn & _).
  exists w'. split; [exact Hrun|].
  rewrite Hcalls, Hdrawn, Hcache, Hfs. cbn. rewrite <- app_assoc.
  repeat split.
Qed.

Lemma ocr_exception_propagates_witness :
  ∃ w', process_document_fully DemoImport.broken_ocr Demo.summarizer Demo.upload Demo.world
          = (Raise (PyException "RuntimeError"), w')
        ∧ calls w'
          = [EvCopyFileObj "temp_5f0c1e7a9b2d4c3e8f6a1b0c9d8e7f60_report.pdf";
             EvProcessDocument "temp_5f0c1e7a9b2d4c3e8f6a1b0c9d8e7f60_report.pdf"]
        ∧ uuid_drawn w' = 1%nat.
Proof.
  destruct (ocr_exception_propagates DemoImport.broken_ocr Demo.summarizer Demo.upload
              Demo.world
              ({["temp_5f0c1e7a9b2d4c3e8f6a1b0c9d8e7f60_report.pdf"]} ∪ ∅)
              ({["temp_5f0c1e7a9b2d4c3e8f6a1b0c9d8e7f60_report.pdf"]} ∪ ∅)
              (PyException "RuntimeError"))
    as (w' & Hrun & Hcalls & Hdrawn & _); [reflexivity.. |].
  exists w'. split; [exact Hrun | split; [exact Hcalls | exact Hdrawn]].
Defined.

(** X3. When the temporary file cannot be opened, the exception of [open],
    whatever its class, is the outcome of the handler, unless the path
    already existed and [os.remove] raises on it in the [finally] block.
    No collaborator is called, nothing is printed, one uuid has been drawn
    and the cache is what it was; the file system is the initial one,
    without the temporary path if it existed and could be removed. *)
Theorem open_failure_stops_early (co : Collaborators) (summarizer : SummarizationService)
    (upload : UploadFile) (w : World) :
  let path := temp_path (uuid_source w (uuid_drawn w)) upload in
  can_open_wb co path (fs w) = false →
  ∃ w', process_document_fully co summarizer upload w
          = (cleanup_outcome co path (fs w)
               (Raise (PyException (open_wb_error co path (fs w)))), w')
        ∧ calls w' = calls w
        ∧ stdout w' = stdout w
        ∧ uuid_drawn w' = S (uuid_drawn w)
        ∧ DOCUMENT_LAST_RESULT w' = DOCUMENT_LAST_RESULT w
        ∧ fs w' = cleanup_fs co path (fs w).
Proof.
  intros path Hopen.
  unfold process_document_fully. rewrite bind_run. cbn [uuid4_hex]. fold path.
  match goal with
  | |- context [try_finally ?body _ ?w1] => eassert (body w1 = (_, _)) as Hbody
  end.
  { rewrite bind_run. unfold open_wb at 1. cbn [fs set_uuid_drawn]. rewrite Hopen.
    reflexivity. }
  destruct (try_finally_run co _ path _ _ _ Hbody)
    as (w' & Hrun & Hfs & Hcalls & Hcache & Hdrawn & Hstdout).
  exists w'. split; [exact Hrun|].
  rewrite Hcalls, Hstdout, Hdrawn, Hcache, Hfs. repeat split.
Qed.

Lemma open_failure_stops_early_witness :
  ∃ w', process_document_fully DemoImport.read_only Demo.summarizer Demo.upload Demo.world
          = (Raise (PyException "ValueError"), w')
        ∧ calls w' = calls Demo.world
        ∧ fs w' = fs Demo.world.
Proof.
  destruct (open_failure_stops_early DemoImport.read_only Demo.summarizer Demo.upload
              Demo.world) as (w' & Hrun & Hcalls & _ & _ & _ & Hfs); [reflexivity|].
  exists w'. split; [exact Hrun | split; [exact Hcalls | exact Hfs]].
Defined.

(** Case analysis of one collaborator call in a run. *)
Ltac walk_call :=
  rewrite bind_run; unfold call at 1; cbv zeta;
  match goal with
  | |- context [let '(_, _) := ?f ?x in _] =>
      let r := fresh "r" in
      let f' := fresh "f" in
      let Hcall := fresh "Hcall" in
      destruct (f x) as [[r|r] f'] eqn:Hcall; cbv beta iota zeta
  end.

Ltac collaborator_raised H :=
  let Heq := fresh "Heq" in
  intros Heq; inversion Heq; subst;
  match goal with
  | Hcall : ?f ?x = (Raise _, _) |- _ =>
      exfalso; eapply (H x); rewrite Hcall; reflexivity
  end.

(** X4. When no collaborator raises an HTTPException of its own, the only
    HTTP errors of the workflow handler are the 400 "Failed to extract text
    from document." and the 500 whose detail starts with "Failed to build
    index: ". *)
Theorem workflow_http_errors (co : Collaborators) (summarizer : SummarizationService)
    (upload : UploadFile) (w w' : World) (status_code : Z) (detail : string) :
  workflow_collaborators (@no_http) co →
  process_document_fully co summarizer upload w
    = (Raise (HTTPException status_code detail), w') →
  (status_code = 400 ∧ detail = "Failed to extract text from document.")
  ∨ (status_code = 500 ∧ ∃ err, detail = "Failed to build index: " ++ py_str co err).
Proof.
  intros (Hcopy & Hocr & Hsum & Hchunk & Hbuild).
  unfold process_document_fully. rewrite bind_run. cbn [uuid4_hex].
  set (path := temp_path (uuid_source w (uuid_drawn w)) upload).
  match goal with
  | |- context [try_finally ?body _ ?w1] =>
      destruct (body w1) as [r w2] eqn:Hbody;
      destruct (try_finally_run co body path w1 w2 r Hbody) as (w3 & -> & _)
  end.
  intros Heq. inversion Heq as [[Hr Hw]]. apply cleanup_outcome_HTTPException in Hr.
  subst r. clear Heq Hw.
  revert Hbody.
  rewrite bind_run. unfold open_wb at 1.
  destruct (can_open_wb co path _); [|discriminate].
  walk_call; [|collaborator_raised (Hcopy upload path)].
  rewrite bind_run. cbn [print].
  walk_call; [|collaborator_raised (Hocr path)].
  destruct (truthy (dict_get r0 "text")); cbn [negb].
  2: { intros Heq. inversion Heq. left. split; reflexivity. }
  rewrite bind_run. cbn [print].
  walk_call; [|collaborator_raised (Hsum summarizer (dict_get r0 "text") "general")].
  rewrite bind_run. cbn [print]. rewrite bind_run. cbn [uuid4_hex].
  walk_call;
    [|collaborator_raised
        (Hchunk (filename upload) (dict_get r0 "page_details") 250 50)].
  walk_call; [|collaborator_raised (Hbuild r2)].
  destruct (dict_contains r3 "error").
  - intros Heq. inversion Heq. right. split; [reflexivity | eexists; reflexivity].
  - rewrite bind_run. cbn [print]. discriminate.
Qed.

Lemma workflow_http_errors_witness :
  (500 = 400 ∧ "Failed to build index: disk full" = "Failed to extract text from document.")
  ∨ (500 = 500
     ∧ ∃ err, "Failed to build index: disk full"
              = "Failed to build index: " ++ py_str Demo.disk_full err).
Proof.
  apply (workflow_http_errors Demo.disk_full Demo.summarizer Demo.upload Demo.world
           (process_document_fully Demo.disk_full Demo.summarizer Demo.upload Demo.world).2
           500 "Failed to build index: disk full").
  - repeat split; intros; intros ? ? ?; discriminate.
  - vm_compute. reflexivity.
Defined.

(** *** The file system apart from the temporary file *)

Section OtherFiles.

Context (path : string).

Lemma other_files_call {A : Type} (ev : Event) (f : extern A) :
  fs_inert f → keeps (other_files path) (call ev f).
Proof.
  intros Hf w. unfold call, other_files. cbn [fs log_call].
  specialize (Hf (fs w)). destruct (f (fs w)) as [r f']. simpl in *. rewrite Hf.
  reflexivity.
Qed.

Lemma other_files_print (line : string) : keeps (other_files path) (print line).
Proof. intros w. reflexivity. Qed.

Lemma other_files_uuid4_hex : keeps (other_files path) uuid4_hex.
Proof. intros w. reflexivity. Qed.

Lemma other_files_open_wb (co : Collaborators) : keeps (other_files path) (open_wb co path).
Proof.
  intros w. unfold open_wb, other_files.
  destruct (can_open_wb co path (fs w)); [|reflexivity]. simpl.
  apply set_eq. intros p.
  rewrite !elem_of_difference, elem_of_union, elem_of_singleton. tauto.
Qed.

Lemma other_files_remove_if_exists (co : Collaborators) :
  keeps (other_files path) (remove_if_exists co path).
Proof.
  intros w. unfold remove_if_exists, os_remove, other_files. rewrite bind_run. simpl.
  destruct (bool_decide (path ∈ fs w)); [|reflexivity].
  destruct (os_remove_error co path (fs w)); [reflexivity|]. simpl.
  apply set_eq. intros p. rewrite !elem_of_difference. tauto.
Qed.

End OtherFiles.

(** X5. When the collaborators leave the file system alone, the workflow
    handler changes it in one place only: every path other than the
    temporary one exists afterwards exactly if it did before, whatever the
    outcome; and on a system where [os.remove] does not fail on the
    temporary path, that path does not exist afterwards, even if a file of
    that name was there before. *)
Theorem workflow_touches_only_temp_file (co : Collaborators)
    (summarizer : SummarizationService) (upload : UploadFile) (w : World) :
  workflow_collaborators (@fs_inert) co →
  fs (process_document_fully co summarizer upload w).2
    ∖ {[temp_path (uuid_source w (uuid_drawn w)) upload]}
  = fs w ∖ {[temp_path (uuid_source w (uuid_drawn w)) upload]}
  ∧ ((∀ f, os_remove_error co (temp_path (uuid_source w (uuid_drawn w)) upload) f = None) →
     fs (process_document_fully co summarizer upload w).2
     = fs w ∖ {[temp_path (uuid_source w (uuid_drawn w)) upload]}).
Proof.
  intros (Hcopy & Hocr & Hsum & Hchunk & Hbuild).
  unfold process_document_fully. rewrite bind_run. cbn [uuid4_hex].
  set (path := temp_path (uuid_source w (uuid_drawn w)) upload).
  match goal with
  | |- context [try_finally ?body ?cleanup ?w1] =>
      assert (keeps (other_files path) (try_finally body cleanup)) as Hkeep;
      [| destruct (body w1) as [r w2] eqn:Hbody;
         destruct (try_finally_run co body path w1 w2 r Hbody) as (w3 & Hrun & Hfs & _);
         specialize (Hkeep w1); rewrite Hrun in *; cbn [fst snd] in * ]
  end.
  { repeat first [ apply other_files_remove_if_exists | apply other_files_open_wb
                 | apply other_files_print | apply other_files_uuid4_hex
                 | apply other_files_call; solve [auto]
                 | apply keeps_ret | apply keeps_raise
                 | apply keeps_try_finally
                 | apply keeps_bind; [| intros ? ]
                 | apply keeps_if ]. }
  unfold other_files in Hkeep. cbn [fs set_uuid_drawn] in Hkeep.
  split; [exact Hkeep|].
  intros Hok. rewrite <- Hkeep. rewrite Hfs. unfold cleanup_fs. rewrite Hok.
  destruct (bool_decide_reflect (path ∈ fs w2)) as [Hin | Hout].
  - apply set_eq. intros p. rewrite !elem_of_difference. tauto.
  - symmetry. apply difference_disjoint_L, disjoint_singleton_r. exact Hout.
Qed.

Lemma workflow_touches_only_temp_file_witness :
  fs (process_document_fully Demo.disk_full Demo.summarizer Demo.upload Demo.world).2
  = fs Demo.world ∖ {["temp_5f0c1e7a9b2d4c3e8f6a1b0c9d8e7f60_report.pdf"]}.
Proof.
  apply (workflow_touches_only_temp_file Demo.disk_full Demo.summarizer Demo.upload
           Demo.world).
  - repeat split; intros; intros ?; reflexivity.
  - intros f. reflexivity.
Defined.

(** *** What the workflow handler leaves untouched, and how many uuids it draws *)

Section Untouched.

Context {X : Type} (P : World → X).
Hypothesis P_set_fs : ∀ f w, P (set_fs f w) = P w.
Hypothesis P_log_call : ∀ ev w, P (log_call ev w) = P w.
Hypothesis P_log_stdout : ∀ line w, P (log_stdout line w) = P w.
Hypothesis P_set_uuid_drawn : ∀ n w, P (set_uuid_drawn n w) = P w.

Lemma untouched_call {A : Type} (ev : Event) (f : extern A) : keeps P (call ev f).
Proof.
  intros w. unfold call. cbv zeta. destruct (f _) as [r f']. simpl.
  rewrite P_set_fs, P_log_call. reflexivity.
Qed.

Lemma untouched_print (line : string) : keeps P (print line).
Proof. intros w. simpl. apply P_log_stdout. Qed.

Lemma untouched_uuid4_hex : keeps P uuid4_hex.
Proof. intros w. simpl. apply P_set_uuid_drawn. Qed.

Lemma untouched_open_wb (co : Collaborators) (path : string) : keeps P (open_wb co path).
Proof.
  intros w. unfold open_wb. destruct (can_open_wb co path (fs w)); simpl;
    [apply P_set_fs | reflexivity].
Qed.

Lemma untouched_remove_if_exists (co : Collaborators) (path : string) :
  keeps P (remove_if_exists co path).
Proof.
  intros w. unfold remove_if_exists, os_remove. rewrite bind_run. simpl.
  destruct (bool_decide (path ∈ fs w)); [|reflexivity].
  destruct (os_remove_error co path (fs w)); simpl; [reflexivity | apply P_set_fs].
Qed.

Lemma untouched_process_document_fully (co : Collaborators)
    (summarizer : SummarizationService) (upload : UploadFile) :
  keeps P (process_document_fully co summarizer upload).
Proof.
  unfold process_document_fully.
  repeat first [ apply untouched_remove_if_exists | apply untouched_open_wb
               | apply untouched_print | apply untouched_uuid4_hex
               | apply untouched_call
               | apply keeps_ret | apply keeps_raise
               | apply keeps_try_finally
               | apply keeps_bind; [| intros ? ]
               | apply keeps_if ].
Qed.

End Untouched.

Section Draws.

Local Open Scope nat_scope.

Lemma draws_within_ret {A : Type} (k : nat) (a : A) : draws_within k (mret a).
Proof. intros w. simpl. lia. Qed.

Lemma draws_within_raise {A : Type} (k : nat) (e : exn) : draws_within k (raise e : M A).
Proof. intros w. simpl. lia. Qed.

Lemma draws_within_call {A : Type} (k : nat) (ev : Event) (f : extern A) :
  draws_within k (call ev f).
Proof. intros w. unfold call. cbv zeta. destruct (f _). simpl. lia. Qed.

Lemma draws_within_print (k : nat) (line : string) : draws_within k (print line).
Proof. intros w. simpl. lia. Qed.

Lemma draws_within_open_wb (k : nat) (co : Collaborators) (path : string) :
  draws_within k (open_wb co path).
Proof. intros w. unfold open_wb. destruct (can_open_wb co path (fs w)); simpl; lia. Qed.

Lemma draws_within_remove_if_exists (k : nat) (co : Collaborators) (path : string) :
  draws_within k (remove_if_exists co path).
Proof.
  intros w. unfold remove_if_exists, os_remove. rewrite bind_run. simpl.
  destruct (bool_decide (path ∈ fs w)); [|simpl; lia].
  destruct (os_remove_error co path (fs w)); simpl; lia.
Qed.

(** A step that draws nothing, then the rest. *)
Lemma draws_within_bind {A B : Type} (k : nat) (m : M A) (rest : A → M B) :
  draws_within 0 m → (∀ a, draws_within k (rest a)) → draws_within k (m ≫= rest).
Proof.
  intros Hm Hrest w. rewrite bind_run. specialize (Hm w).
  destruct (m w) as [[a|e] w1]; simpl in *; [|lia].
  specialize (Hrest a w1). lia.
Qed.

(** One draw, then the rest. *)
Lemma draws_within_draw {B : Type} (k : nat) (rest : string → M B) :
  (∀ hex, draws_within k (rest hex)) → draws_within (S k) (uuid4_hex ≫= rest).
Proof.
  intros Hrest w. rewrite bind_run. cbn [uuid4_hex].
  specialize (Hrest (uuid_source w (uuid_drawn w)) (set_uuid_drawn (S (uuid_drawn w)) w)).
  simpl in *. lia.
Qed.

Lemma draws_within_if {A : Type} (k : nat) (c : bool) (m1 m2 : M A) :
  draws_within k m1 → draws_within k m2 → draws_within k (if c then m1 else m2).
Proof. destruct c; auto. Qed.

Lemma draws_within_try_finally {A : Type} (k : nat) (body : M A) (cleanup : M ()) :
  draws_within k body → draws_within 0 cleanup → draws_within k (try_finally body cleanup).
Proof.
  intros Hb Hc w. unfold try_finally. specialize (Hb w).
  destruct (body w) as [r w1]. specialize (Hc w1).
  destruct (cleanup w1) as [[[]|e] w2]; simpl in *; lia.
Qed.

Lemma workflow_draws (co : Collaborators) (summarizer : SummarizationService)
    (upload : UploadFile) (w : World) :
  S (uuid_drawn w) ≤ uuid_drawn (process_document_fully co summarizer upload w).2
  ∧ uuid_drawn (process_document_fully co summarizer upload w).2 ≤ S (S (uuid_drawn w))
  ∧ uuid_source (process_document_fully co summarizer upload w).2 = uuid_source w
  ∧ environ (process_document_fully co summarizer upload w).2 = environ w.
Proof.
  assert (draws_within 2 (process_document_fully co summarizer upload)) as Hdraws.
  { unfold process_document_fully. apply draws_within_draw. intros hex.
    apply draws_within_try_finally; [|apply draws_within_remove_if_exists].
    repeat first [ apply draws_within_open_wb | apply draws_within_call
                 | apply draws_within_print
                 | apply draws_within_ret | apply draws_within_raise
                 | apply draws_within_draw; intros ?
                 | apply draws_within_bind; [| intros ? ]
                 | apply draws_within_if ]. }
  assert (S (uuid_drawn w) ≤ uuid_drawn (process_document_fully co summarizer upload w).2)
    as Hfirst.
  { unfold process_document_fully. rewrite bind_run. cbn [uuid4_hex].
    match goal with
    | |- context [try_finally ?body ?cleanup ?w1] =>
        assert (draws_within 1 (try_finally body cleanup)) as Hrest;
        [| specialize (Hrest w1); simpl in Hrest; lia ]
    end.
    apply draws_within_try_finally; [|apply draws_within_remove_if_exists].
    repeat first [ apply draws_within_open_wb | apply draws_within_call
                 | apply draws_within_print
                 | apply draws_within_ret | apply draws_within_raise
                 | apply draws_within_draw; intros ?
                 | apply draws_within_bind; [| intros ? ]
                 | apply draws_within_if ]. }
  split; [exact Hfirst|]. split; [destruct (Hdraws w); lia|]. split.
  - apply (untouched_process_document_fully uuid_source); reflexivity.
  - apply (untouched_process_document_fully environ); reflexivity.
Qed.

(** X6. Every call of the workflow handler, whatever its outcome, draws
    the uuid of the temporary file, and draws the DocumentIdentifier
    exactly in the runs that reach step 3, that is, that go on to call the
    chunker: two uuids then, one otherwise.  The source itself is never
    replaced. *)
Theorem workflow_draws_one_or_two (co : Collaborators) (summarizer : SummarizationService)
    (upload : UploadFile) (w : World) :
  ∃ new : list Event,
    calls (process_document_fully co summarizer upload w).2 = (calls w ++ new)%list
    ∧ uuid_drawn (process_document_fully co summarizer upload w).2
      = (if existsb is_chunk_call new then S (S (uuid_drawn w)) else S (uuid_drawn w))
    ∧ uuid_source (process_document_fully co summarizer upload w).2 = uuid_source w.
Proof.
  assert (uuid_source (process_document_fully co summarizer upload w).2 = uuid_source w)
    as Hsource by (apply (untouched_process_document_fully uuid_source); reflexivity).
  revert Hsource.
  unfold process_document_fully. rewrite bind_run. cbn [uuid4_hex].
  set (path := temp_path (uuid_source w (uuid_drawn w)) upload).
  match goal with
  | |- context [try_finally ?body _ ?w1] =>
      destruct (body w1) as [r w2] eqn:Hbody;
      destruct (try_finally_run co body path w1 w2 r Hbody)
        as (w3 & Hrun & _ & Hcalls3 & _ & Hdrawn3 & _)
  end.
  rewrite Hrun. cbn [fst snd]. rewrite Hcalls3, Hdrawn3. intros Hsource.
  assert (∃ new : list Event,
            calls w2 = (calls w ++ new)%list
            ∧ uuid_drawn w2
              = (if existsb is_chunk_call new then S (S (uuid_drawn w))
                 else S (uuid_drawn w))) as (new & Hcalls & Hdrawn);
    [| exists new; auto ].
  clear Hsource. revert Hbody.
  rewrite bind_run. unfold open_wb at 1. cbn [fs set_uuid_drawn].
  destruct (can_open_wb co path (fs w)).
  2: { intros Heq. inversion Heq. exists []. rewrite app_nil_r. split; reflexivity. }
  walk_call.
  2: { intros Heq. inversion Heq. eexists. cbn. split; reflexivity. }
  rewrite bind_run. cbn [print].
  walk_call.
  2: { intros Heq. inversion Heq. eexists. cbn. rewrite <- !app_assoc.
       split; reflexivity. }
  destruct (truthy (dict_get r1 "text")); cbn [negb].
  2: { intros Heq. inversion Heq. eexists. cbn. rewrite <- !app_assoc.
       split; reflexivity. }
  rewrite bind_run. cbn [print].
  walk_call.
  2: { intros Heq. inversion Heq. eexists. cbn. rewrite <- !app_assoc.
       split; reflexivity. }
  rewrite bind_run. cbn [print]. rewrite bind_run. cbn [uuid4_hex].
  walk_call.
  2: { intros Heq. inversion Heq. eexists. cbn. rewrite <- !app_assoc.
       split; reflexivity. }
  walk_call.
  2: { intros Heq. inversion Heq. eexists. cbn. rewrite <- !app_assoc.
       split; reflexivity. }
  destruct (dict_contains r4 "error").
  - intros Heq. inversion Heq. eexists. cbn. rewrite <- !app_assoc.
    split; reflexivity.
  - rewrite bind_run. cbn [print]. intros Heq. inversion Heq. eexists. cbn.
    rewrite <- !app_assoc. split; reflexivity.
Qed.

End Draws.

(** *** Names of temporary files *)

Lemma append_same_length_inj (a b c d : string) :
  String.length a = String.length b → (a ++ c = b ++ d)%string → a = b ∧ c = d.
Proof.
  revert b. induction a as [|x a IH]; intros [|y b] Hlen Heq; simpl in *;
    try discriminate.
  - split; [reflexivity | exact Heq].
  - inversion Heq; subst. destruct (IH b) as [-> ->]; [lia | assumption |].
    split; reflexivity.
Qed.

Lemma temp_path_parts (hex1 hex2 : string) (upload1 upload2 : UploadFile) :
  String.length hex1 = String.length hex2 →
  temp_path hex1 upload1 = temp_path hex2 upload2 →
  hex1 = hex2 ∧ filename upload1 = filename upload2.
Proof.
  intros Hlen Heq. unfold temp_path in Heq.
  apply (append_same_length_inj "temp_" "temp_") in Heq as [_ Heq]; [|reflexivity].
  apply append_same_length_inj in Heq as [Hhex Heq]; [|exact Hlen].
  apply (append_same_length_inj "_" "_") in Heq as [_ Heq]; [|reflexivity].
  split; assumption.
Qed.

(** X7. The name of the temporary file determines the uuid and the upload's
    file name it was built from, as long as the uuids have one length (a
    uuid4 hex always has 32 characters): two calls with different uuids
    never share a temporary file. *)
Theorem temp_path_inj (hex1 hex2 : string) (upload1 upload2 : UploadFile) :
  String.length hex1 = String.length hex2 →
  temp_path hex1 upload1 = temp_path hex2 upload2 →
  hex1 = hex2 ∧ filename upload1 = filename upload2.
Proof. apply temp_path_parts. Qed.

Lemma temp_path_inj_witness :
  "5f0c1e7a9b2d4c3e8f6a1b0c9d8e7f60" = "5f0c1e7a9b2d4c3e8f6a1b0c9d8e7f60"
  ∧ filename Demo.upload = filename Demo.upload.
Proof.
  apply (temp_path_inj "5f0c1e7a9b2d4c3e8f6a1b0c9d8e7f60" "5f0c1e7a9b2d4c3e8f6a1b0c9d8e7f60"
           Demo.upload Demo.upload); reflexivity.
Defined.

(** Without the length condition the name is ambiguous: the underscore is
    also a legal character of a file name. *)
Example temp_path_ambiguous :
  temp_path "ab" {| filename := "c_d.pdf"; file := "" |}
  = temp_path "ab_c" {| filename := "d.pdf"; file := "" |}.
Proof. reflexivity. Qed.

(** X8. Two uploads handled one after the other get different temporary
    files, whatever the outcome of the first call, when the next two uuids
    of the source differ from the one the first call used and have its
    length. *)
Theorem consecutive_uploads_distinct_temp_files (co : Collaborators)
    (summarizer : SummarizationService) (upload1 upload2 : UploadFile) (w : World) :
  (∀ i, (uuid_drawn w < i ≤ uuid_drawn w + 2)%nat →
        uuid_source w i ≠ uuid_source w (uuid_drawn w)
        ∧ String.length (uuid_source w i) = String.length (uuid_source w (uuid_drawn w))) →
  temp_path (uuid_source w (uuid_drawn w)) upload1
  ≠ temp_path
      (uuid_source (process_document_fully co summarizer upload1 w).2
         (uuid_drawn (process_document_fully co summarizer upload1 w).2))
      upload2.
Proof.
  intros Hfresh Heq.
  destruct (workflow_draws co summarizer upload1 w) as (Hlo & Hhi & Hsource & _).
  rewrite Hsource in Heq.
  destruct (Hfresh (uuid_drawn (process_document_fully co summarizer upload1 w).2))
    as [Hne Hlen]; [lia|].
  apply temp_path_parts in Heq as [Hhex _]; [|symmetry; exact Hlen].
  apply Hne. symmetry. exact Hhex.
Qed.

Lemma consecutive_uploads_distinct_temp_files_witness :
  temp_path (uuid_source Demo.world (uuid_drawn Demo.world)) Demo.upload
  ≠ temp_path
      (uuid_source (process_document_fully Demo.services Demo.summarizer Demo.upload
                      Demo.world).2
         (uuid_drawn (process_document_fully Demo.services Demo.summarizer Demo.upload
                        Demo.world).2))
      Demo.upload.
Proof.
  apply (consecutive_uploads_distinct_temp_files Demo.services Demo.summarizer
           Demo.upload Demo.upload Demo.world).
  intros i Hi. simpl in Hi.
  assert (i = 1 ∨ i = 2)%nat as [-> | ->] by lia; split; (discriminate || reflexivity).
Defined.

(** ** Further properties of the summary endpoint *)

(** Every way a call of [get_summary] can go. *)
Lemma get_summary_cases (co : Collaborators) (type : string)
    (document_id text : option string) (w : World) :
  let w0 := set_environ (load_dotenv co) w in
  get_summary co type document_id text w
    = (Return (PyDict {[ "error" := PyStr "Missing OPENAI_API_KEY" ]}), w0)
  ∨ (∃ id, document_id = Some id
       ∧ truthy (default PyNone (DOCUMENT_LAST_RESULT w !! id)) = false
       ∧ get_summary co type document_id text w
         = (Return (not_processed_yet id), log_call (EvCacheGet id) w0))
  ∨ (∃ id v, document_id = Some id
       ∧ DOCUMENT_LAST_RESULT w !! id = Some v ∧ (∀ d, v ≠ PyDict d)
       ∧ get_summary co type document_id text w
         = (Raise (PyException "AttributeError"), log_call (EvCacheGet id) w0))
  ∨ (∃ w1, (w1 = w0 ∨ ∃ id, w1 = log_call (EvCacheGet id) w0)
       ∧ get_summary co type document_id text w = (Return no_text_provided, w1))
  ∨ (∃ w1 svc source_text r f',
       (w1 = w0 ∨ ∃ id, w1 = log_call (EvCacheGet id) w0)
       ∧ truthy source_text = true
       ∧ summarize_document co svc source_text type (fs w1) = (r, f')
       ∧ get_summary co type document_id text w
         = (match r with
            | Return summary =>
                Return (PyDict (<["summary" := PyStr summary]>
                               (<["word_count" := PyInt (Z.of_nat (length (py_split summary)))]>
                               (<["status" := PyStr "success"]> ∅))))
            | Raise e => Raise e
            end,
            set_fs (λ _, f') (log_call (EvSummarize svc source_text type) w1))).
Proof.
  intros w0. unfold get_summary.
  destruct (get_summarizer_run co w) as [[svc|] Hsvc];
    rewrite (bind_Return _ _ _ _ _ Hsvc); fold w0; [|left; reflexivity].
  right.
  assert (∀ w1 source_text,
            (w1 = w0 ∨ ∃ id, w1 = log_call (EvCacheGet id) w0) →
            ∀ rest,
              rest = (if negb (truthy source_text)
                      then mret no_text_provided
                      else summary ← call (EvSummarize svc source_text type)
                                          (summarize_document co svc source_text type);
                           mret (PyDict (<["summary" := PyStr summary]>
                                        (<["word_count" :=
                                             PyInt (Z.of_nat (length (py_split summary)))]>
                                        (<["status" := PyStr "success"]> ∅))))) w1 →
              (∃ w2, (w2 = w0 ∨ ∃ id, w2 = log_call (EvCacheGet id) w0)
                     ∧ rest = (Return no_text_provided, w2))
              ∨ (∃ w2 svc' st r f',
                   (w2 = w0 ∨ ∃ id, w2 = log_call (EvCacheGet id) w0)
                   ∧ truthy st = true
                   ∧ summarize_document co svc' st type (fs w2) = (r, f')
                   ∧ rest
                     = (match r with
                        | Return summary =>
                            Return (PyDict (<["summary" := PyStr summary]>
                                           (<["word_count" :=
                                                PyInt (Z.of_nat (length (py_split summary)))]>
                                           (<["status" := PyStr "success"]> ∅))))
                        | Raise e => Raise e
                        end,
                        set_fs (λ _, f') (log_call (EvSummarize svc' st type) w2))))
    as Htail.
  { intros w1 st Hw1 rest ->. destruct (truthy st) eqn:Hst; cbn [negb].
    - right. rewrite bind_run. unfold call. cbv zeta. cbn [fs log_call].
      destruct (summarize_document co svc st type (fs w1)) as [r f'] eqn:Hsum.
      exists w1, svc, st, r, f'. repeat split; try assumption.
      destruct r; reflexivity.
    - left. exists w1. split; [assumption | reflexivity]. }
  rewrite bind_run. unfold resolve_source_text.
  destruct (opt_truthy document_id && negb (opt_truthy text)) eqn:Hcond.
  - destruct document_id as [doc|]; [|discriminate]. cbn [from_option id].
    rewrite bind_run. cbn [cache_get]. cbv beta iota zeta.
    change (DOCUMENT_LAST_RESULT w0) with (DOCUMENT_LAST_RESULT w).
    destruct (truthy (default PyNone (DOCUMENT_LAST_RESULT w !! doc))) eqn:Htruthy.
    + destruct (DOCUMENT_LAST_RESULT w !! doc) as [v|] eqn:Hv; [|discriminate].
      cbn [from_option id] in *. rewrite bind_run.
      destruct v as [| b | z | s | l | d]; cbn [get_text]; cbv beta iota zeta;
        [ discriminate Htruthy
        | right; left; exists doc, (PyBool b); repeat split;
          [exact Hv | intros ?; discriminate]
        | right; left; exists doc, (PyInt z); repeat split;
          [exact Hv | intros ?; discriminate]
        | right; left; exists doc, (PyStr s); repeat split;
          [exact Hv | intros ?; discriminate]
        | right; left; exists doc, (PyList l); repeat split;
          [exact Hv | intros ?; discriminate]
        | ].
      right. right.
      apply (Htail _ _ (or_intror (ex_intro _ doc eq_refl)) _ eq_refl).
    + left. exists doc. repeat split. exact Htruthy.
  - right. right. cbv beta iota zeta.
    apply (Htail _ _ (or_introl eq_refl) _ eq_refl).
Qed.

(** X9. With the credential present and neither a usable text nor a usable
    identifier (each missing or empty), the summary endpoint returns the
    "No text provided ..." payload without reading the cache or calling the
    summarizer. *)
Theorem no_source_is_usage_error (co : Collaborators) (type key : string)
    (document_id text : option string) (w : World) :
  load_dotenv co (environ w) !! "OPENAI_API_KEY" = Some key → key ≠ "" →
  opt_truthy document_id = false →
  opt_truthy text = false →
  get_summary co type document_id text w
  = (Return no_text_provided, set_environ (load_dotenv co) w).
Proof.
  intros Hkey Hne Hid Htext. unfold get_summary.
  rewrite (bind_Return _ _ _ _ _ (get_summarizer_Some co w key Hkey Hne)).
  rewrite bind_run. unfold resolve_source_text. rewrite Hid, Htext. reflexivity.
Qed.

Lemma no_source_is_usage_error_witness :
  get_summary Demo.services "short" None (Some "") Demo.world
  = (Return no_text_provided, set_environ (load_dotenv Demo.services) Demo.world).
Proof.
  apply (no_source_is_usage_error Demo.services "short" "sk-test" None (Some "")
           Demo.world); [reflexivity | discriminate | reflexivity | reflexivity].
Defined.

(** X10. An identifier that is in the cache with an empty result (an empty
    dict, or None) is answered like an unknown one: the "not processed yet"
    payload, and no summarizer call. *)
Theorem empty_cache_entry_not_processed (co : Collaborators) (type document_id key : string)
    (text : option string) (w : World) (cached_result : pyval) :
  load_dotenv co (environ w) !! "OPENAI_API_KEY" = Some key → key ≠ "" →
  document_id ≠ "" →
  opt_truthy text = false →
  DOCUMENT_LAST_RESULT w !! document_id = Some cached_result →
  truthy cached_result = false →
  get_summary co type (Some document_id) text w
  = (Return (not_processed_yet document_id),
     log_call (EvCacheGet document_id) (set_environ (load_dotenv co) w)).
Proof.
  intros Hkey Hne Hid Htext Hcached Hfalsy. unfold get_summary.
  rewrite (bind_Return _ _ _ _ _ (get_summarizer_Some co w key Hkey Hne)).
  rewrite bind_run, resolve_by_id_run by assumption.
  cbn [DOCUMENT_LAST_RESULT set_environ]. rewrite Hcached. cbn [from_option id].
  rewrite Hfalsy. reflexivity.
Qed.

Lemma empty_cache_entry_not_processed_witness :
  get_summary Demo.services "short" (Some "doc-empty") None DemoImport.odd_cache
  = (Return (not_processed_yet "doc-empty"),
     log_call (EvCacheGet "doc-empty")
       (set_environ (load_dotenv Demo.services) DemoImport.odd_cache)).
Proof.
  apply (empty_cache_entry_not_processed Demo.services "short" "doc-empty" "sk-test" None
           DemoImport.odd_cache (PyDict ∅));
    [reflexivity | discriminate | discriminate | reflexivity | reflexivity | reflexivity].
Defined.

(** X11. A cached result that has entries but no "text" (or an empty one)
    yields the usage error "No text provided ...", not a summary: the
    cache is read once and the summarizer is not called. *)
Theorem cached_entry_without_text (co : Collaborators) (type document_id key : string)
    (text : option string) (w : World) (d : gmap string pyval) :
  load_dotenv co (environ w) !! "OPENAI_API_KEY" = Some key → key ≠ "" →
  document_id ≠ "" →
  opt_truthy text = false →
  DOCUMENT_LAST_RESULT w !! document_id = Some (PyDict d) →
  d ≠ ∅ →
  truthy (dict_get_default d "text" (PyStr "")) = false →
  get_summary co type (Some document_id) text w
  = (Return no_text_provided,
     log_call (EvCacheGet document_id) (set_environ (load_dotenv co) w)).
Proof.
  intros Hkey Hne Hid Htext Hcached Hd Hnotext. unfold get_summary.
  rewrite (bind_Return _ _ _ _ _ (get_summarizer_Some co w key Hkey Hne)).
  rewrite bind_run, resolve_by_id_run by assumption.
  cbn [DOCUMENT_LAST_RESULT set_environ]. rewrite Hcached. cbn [from_option id truthy].
  rewrite bool_decide_eq_false_2 by exact Hd. cbn [negb].
  unfold get_text, mret, M_ret. cbv beta iota zeta. rewrite Hnotext. reflexivity.
Qed.

Lemma cached_entry_without_text_witness :
  get_summary Demo.services "short" (Some "doc-notext") None DemoImport.odd_cache
  = (Return no_text_provided,
     log_call (EvCacheGet "doc-notext")
       (set_environ (load_dotenv Demo.services) DemoImport.odd_cache)).
Proof.
  apply (cached_entry_without_text Demo.services "short" "doc-notext" "sk-test" None
           DemoImport.odd_cache {[ "summary" := PyStr "cached" ]});
    [reflexivity | discriminate | discriminate | reflexivity | reflexivity
    | | reflexivity].
  intros Heq. apply (f_equal (λ m : gmap string pyval, m !! "summary")) in Heq.
  vm_compute in Heq. discriminate.
Defined.

Ltac summary_world H :=
  destruct H as [-> | [? ->]].

(** X12. Whatever its outcome, a call of the summary endpoint never writes
    the Result Cache, draws no uuid and prints nothing; the environment is
    what [load_dotenv] made of it. *)
Theorem get_summary_never_writes (co : Collaborators) (type : string)
    (document_id text : option string) (w : World) :
  DOCUMENT_LAST_RESULT (get_summary co type document_id text w).2 = DOCUMENT_LAST_RESULT w
  ∧ uuid_drawn (get_summary co type document_id text w).2 = uuid_drawn w
  ∧ uuid_source (get_summary co type document_id text w).2 = uuid_source w
  ∧ stdout (get_summary co type document_id text w).2 = stdout w
  ∧ environ (get_summary co type document_id text w).2 = load_dotenv co (environ w).
Proof.
  destruct (get_summary_cases co type document_id text w)
    as [-> | [(doc & _ & _ & ->) | [(doc & v & _ & _ & _ & ->)
       | [(w1 & Hw1 & ->) | (w1 & svc & st & r & f' & Hw1 & _ & _ & ->)]]]];
    try summary_world Hw1; repeat split.
Qed.

(** X14. Every payload the summary endpoint returns is a dict of one of
    two shapes: the single key "error" with a message, or the three keys
    "summary", "word_count" and "status", the status being "success". *)
Theorem get_summary_payload_shape (co : Collaborators) (type : string)
    (document_id text : option string) (w : World) (response : pyval) :
  (get_summary co type document_id text w).1 = Return response →
  ∃ d : gmap string pyval,
    response = PyDict d
    ∧ ((dom d = {[ "error" ]} ∧ ∃ message, d !! "error" = Some (PyStr message))
       ∨ (dom d = {[ "summary"; "word_count"; "status" ]}
          ∧ d !! "status" = Some (PyStr "success")
          ∧ ∃ summary, d !! "summary" = Some (PyStr summary)
                       ∧ d !! "word_count" = Some (PyInt (Z.of_nat (count_tokens summary))))).
Proof.
  destruct (get_summary_cases co type document_id text w)
    as [-> | [(doc & _ & _ & ->) | [(doc & v & _ & _ & _ & ->)
       | [(w1 & Hw1 & ->) | (w1 & svc & st & r & f' & Hw1 & _ & _ & ->)]]]];
    simpl; intros Heq; try discriminate.
  - inversion Heq. eexists. split; [reflexivity|]. left.
    split; [apply dom_singleton_L | eexists; apply lookup_singleton_eq].
  - inversion Heq. eexists. split; [reflexivity|]. left.
    split; [apply dom_singleton_L | eexists; apply lookup_singleton_eq].
  - inversion Heq. eexists. split; [reflexivity|]. left.
    split; [apply dom_singleton_L | eexists; apply lookup_singleton_eq].
  - destruct r as [summary|e']; [|discriminate]. inversion Heq.
    eexists. split; [reflexivity|]. right. split; [|split].
    + rewrite !dom_insert_L, dom_empty_L. apply set_eq. intros k.
      rewrite !elem_of_union, !elem_of_singleton, elem_of_empty. tauto.
    + reflexivity.
    + exists summary. rewrite <- py_split_length. split; reflexivity.
Qed.

Lemma get_summary_payload_shape_witness :
  ∃ d : gmap string pyval,
    not_processed_yet "doc-404" = PyDict d
    ∧ ((dom d = {[ "error" ]} ∧ ∃ message, d !! "error" = Some (PyStr message))
       ∨ (dom d = {[ "summary"; "word_count"; "status" ]}
          ∧ d !! "status" = Some (PyStr "success")
          ∧ ∃ summary, d !! "summary" = Some (PyStr summary)
                       ∧ d !! "word_count" = Some (PyInt (Z.of_nat (count_tokens summary))))).
Proof.
  apply (get_summary_payload_shape Demo.services "short" (Some "doc-404") None Demo.world).
  vm_compute. reflexivity.
Defined.

(** *** The word count *)

Lemma token_starts_zero (s : string) :
  token_starts true s = 0%nat
  ↔ ∀ c, In c (list_ascii_of_string s) → py_isspace c = true.
Proof.
  induction s as [|c s IH]; simpl.
  - split; [intros _ c [] | reflexivity].
  - destruct (py_isspace c) eqn:Hc; simpl.
    + rewrite IH. split.
      * intros Hall c' [<- | Hin]; [exact Hc | apply Hall, Hin].
      * intros Hall c' Hin. apply Hall. right. exact Hin.
    + split; [discriminate|]. intros Hall.
      specialize (Hall c (or_introl eq_refl)). congruence.
Qed.

Lemma token_starts_bound (s : string) (after_space : bool) :
  (2 * token_starts after_space s
   ≤ String.length s + (if after_space then 1 else 0))%nat.
Proof.
  revert after_space. induction s as [|c s IH]; intros after_space; simpl.
  - lia.
  - specialize (IH (py_isspace c)).
    destruct after_space, (py_isspace c); simpl in *; lia.
Qed.

(** X15. The word count [len(summary.split())] is zero exactly when the
    summary is empty or made of whitespace only, and a summary of n
    characters has at most (n + 1) / 2 words. *)
Theorem word_count_bounds (summary : string) :
  (length (py_split summary) = 0%nat
   ↔ ∀ c, In c (list_ascii_of_string summary) → py_isspace c = true)
  ∧ (2 * length (py_split summary) ≤ String.length summary + 1)%nat.
Proof.
  rewrite py_split_length. unfold count_tokens.
  split; [apply token_starts_zero | apply (token_starts_bound summary true)].
Qed.

(** *** The two endpoints together *)

Lemma get_summarizer_outcome_environ (co : Collaborators) (w1 w2 : World) :
  environ w1 = environ w2 → (get_summarizer co w1).1 = (get_summarizer co w2).1.
Proof.
  intros Henv. unfold get_summarizer. rewrite !bind_run.
  cbn [os_getenv environ set_environ]. rewrite Henv.
  destruct (negb (opt_truthy _)); reflexivity.
Qed.

Lemma resolve_outcome_cache (document_id text : option string) (w1 w2 : World) :
  DOCUMENT_LAST_RESULT w1 = DOCUMENT_LAST_RESULT w2 →
  (resolve_source_text document_id text w1).1 = (resolve_source_text document_id text w2).1.
Proof.
  intros Hcache. unfold resolve_source_text.
  destruct (opt_truthy document_id && negb (opt_truthy text)); [|reflexivity].
  rewrite !bind_run. cbn [cache_get]. cbv beta iota zeta. rewrite Hcache.
  destruct (truthy _); [|reflexivity]. rewrite !bind_run.
  destruct (default PyNone (DOCUMENT_LAST_RESULT w2 !! default "" document_id));
    reflexivity.
Qed.

(** X16. A call of the workflow endpoint, whatever its outcome, has no
    influence on what the summary endpoint does next with its parameters:
    the same credential decision, and for every identifier and text the
    same resolved source text or early payload. *)
Theorem workflow_does_not_affect_summary_source (co : Collaborators)
    (summarizer : SummarizationService) (upload : UploadFile) (w : World)
    (document_id text : option string) :
  (get_summarizer co (process_document_fully co summarizer upload w).2).1
  = (get_summarizer co w).1
  ∧ (resolve_source_text document_id text
       (process_document_fully co summarizer upload w).2).1
    = (resolve_source_text document_id text w).1.
Proof.
  split.
  - apply get_summarizer_outcome_environ.
    apply (untouched_process_document_fully environ); reflexivity.
  - apply resolve_outcome_cache. apply process_document_fully_keeps_cache.
Qed.

(** ** The import of the workflow module *)

(** X17. Without a usable OPENAI_API_KEY the import of [workflow.py] raises
    ValueError before anything is constructed: no constructor ran and no
    directory was made; in the same environment [get_summarizer] returns
    None. *)
Theorem import_without_key_raises (co : Collaborators) (cs : Constructors) (w : World) :
  opt_truthy (load_dotenv co (environ w) !! "OPENAI_API_KEY") = false →
  workflow_module_init co cs w
  = (Raise (PyException "ValueError"), set_environ (load_dotenv co) w)
  ∧ (get_summarizer co w).1 = Return None.
Proof.
  intros Hkey. split.
  - unfold workflow_module_init. rewrite !bind_run.
    cbn [os_getenv environ set_environ]. rewrite Hkey. reflexivity.
  - rewrite get_summarizer_None by exact Hkey. reflexivity.
Qed.

Lemma import_without_key_raises_witness :
  workflow_module_init Demo.services DemoImport.constructors Demo.no_key
  = (Raise (PyException "ValueError"),
     set_environ (load_dotenv Demo.services) Demo.no_key)
  ∧ (get_summarizer Demo.services Demo.no_key).1 = Return None.
Proof.
  apply (import_without_key_raises Demo.services DemoImport.constructors Demo.no_key).
  reflexivity.
Defined.

(** X18. When the import of [workflow.py] succeeds, the module's summarizer
    carries the non-empty key of the environment, it is the summarizer that
    [get_summarizer] builds in that environment, and the directory
    "faiss_indexes" exists. *)
Theorem import_success (co : Collaborators) (cs : Constructors) (w w' : World)
    (summarizer : SummarizationService) :
  workflow_module_init co cs w = (Return summarizer, w') →
  load_dotenv co (environ w) !! "OPENAI_API_KEY" = Some (llm_api_key summarizer)
  ∧ llm_api_key summarizer ≠ ""
  ∧ (get_summarizer co w).1 = Return (Some summarizer)
  ∧ FAISS_INDEX_DIR ∈ fs w'.
Proof.
  unfold workflow_module_init. rewrite !bind_run.
  cbn [os_getenv environ set_environ].
  destruct (load_dotenv co (environ w) !! "OPENAI_API_KEY") as [key|] eqn:Hkey;
    [|discriminate].
  destruct (String.eqb_spec key "") as [-> | Hne]; [discriminate|].
  rewrite opt_truthy_Some by exact Hne. cbn [negb from_option id].
  rewrite bind_run. unfold construct at 1.
  destruct (new_AdvancedDocumentProcessor cs _) as [[[]|e] f1]; [|discriminate].
  rewrite bind_run. unfold construct at 1. cbn [fs set_fs].
  destruct (new_EmbeddingService cs _ _) as [[[]|e] f2]; [|discriminate].
  rewrite bind_run. unfold os_makedirs_exist_ok. cbn [fs set_fs].
  destruct (makedirs_error cs _ _); [discriminate|].
  intros Heq. inversion Heq; subst. simpl.
  split; [reflexivity|]. split; [exact Hne|]. split.
  - rewrite (get_summarizer_Some co w key Hkey Hne). reflexivity.
  - apply elem_of_union. left. apply elem_of_singleton. reflexivity.
Qed.

Lemma import_success_witness :
  load_dotenv Demo.services (environ Demo.world) !! "OPENAI_API_KEY"
  = Some (llm_api_key Demo.summarizer)
  ∧ llm_api_key Demo.summarizer ≠ ""
  ∧ (get_summarizer Demo.services Demo.world).1 = Return (Some Demo.summarizer)
  ∧ FAISS_INDEX_DIR
    ∈ fs (workflow_module_init Demo.services DemoImport.constructors Demo.world).2.
Proof.
  apply (import_success Demo.services DemoImport.constructors Demo.world _ Demo.summarizer).
  vm_compute. reflexivity.
Defined.
